(** * Banking onboarding services: KYC sessions, PAN linking, Aadhaar linking

    A shallow embedding of the three Flask services [app.py], [pan_app.py]
    and [aadhaar_app.py].  Each handler method becomes a function in a small
    state-and-failure monad over the service's tables; the database rows are
    records, the tables finite maps keyed by primary key (the document table,
    which is read back through a relationship, is a list of rows in insertion
    order).

    Conventions.
    - A Python [str] is a Rocq [string]; a character stands for the code point
      of the same number (0..255).
    - [datetime.utcnow()] and [uuid.uuid4()] are inputs of the handlers
      ([now : Z], [u : Z]).
    - The decorators ([jwt_required], [blp.arguments]) run before a method
      body; the schemas they enforce are given as boolean predicates, the
      bodies are modelled on already deserialised data. *)

From Stdlib Require Import ZArith List String Ascii Bool Lia.
From stdpp Require Import base option gmap strings list fin_maps.

Open Scope Z_scope.

(* ===================================================================== *)
(** ** Python strings *)
(* ===================================================================== *)

Module Py.

(** [s[-n:]]: the last [n] characters, the whole string when it is
    shorter. *)
Definition last_chars (n : nat) (s : string) : string :=
  String.substring (String.length s - n) n s.

(** [s[:n]]. *)
Definition first_chars (n : nat) (s : string) : string :=
  String.substring 0 n s.

(** [str.upper] on ASCII letters (the only use is on hexadecimal
    digits). *)
Definition upper_char (c : ascii) : ascii :=
  let n := nat_of_ascii c in
  if (andb (97 <=? n)%nat (n <=? 122)%nat) then ascii_of_nat (n - 32) else c.

Fixpoint upper (s : string) : string :=
  match s with
  | EmptyString => EmptyString
  | String c r => String (upper_char c) (upper r)
  end.

(** [str.encode()]: UTF-8; code points below 128 are one byte, the others
    (below 256 here) two. *)
Definition encode_char (c : ascii) : list Z :=
  let n := Z.of_nat (nat_of_ascii c) in
  if n <? 128 then [n]
  else [Z.lor 192 (Z.shiftr n 6); Z.lor 128 (Z.land n 63)].

Fixpoint encode (s : string) : list Z :=
  match s with
  | EmptyString => []
  | String c r => encode_char c ++ encode r
  end.

Definition hex_digit (d : Z) : ascii :=
  if d <? 10 then ascii_of_nat (Z.to_nat (48 + d))
  else ascii_of_nat (Z.to_nat (87 + d)).

(** ['%0nx' % x]: [n] lowercase hexadecimal digits, most significant
    first. *)
Fixpoint hex (n : nat) (x : Z) : string :=
  match n with
  | O => EmptyString
  | S k => String (hex_digit (Z.land (Z.shiftr x (4 * Z.of_nat k)) 15)) (hex k x)
  end.

(** [uuid.UUID.hex] of the 128-bit value [u]. *)
Definition uuid_hex (u : Z) : string := hex 32 (u mod 2 ^ 128).

(** [f"{prefix}{uuid.uuid4().hex[:8].upper()}"]. *)
Definition fresh_id (prefix : string) (u : Z) : string :=
  String.append prefix (upper (first_chars 8 (uuid_hex u))).

End Py.

(* ===================================================================== *)
(** ** [hashlib.sha256]  (FIPS 180-4) *)
(* ===================================================================== *)

Module SHA256.

Definition mask32 : Z := 0xffffffff.
Definition w32 (x : Z) : Z := Z.land x mask32.
Definition add32 (x y : Z) : Z := w32 (x + y).

Definition rotr (n x : Z) : Z :=
  Z.lor (Z.shiftr x n) (w32 (Z.shiftl x (32 - n))).

Definition ch (e f g : Z) : Z :=
  Z.lxor (Z.land e f) (Z.land (Z.lxor e mask32) g).
Definition maj (a b c : Z) : Z :=
  Z.lxor (Z.lxor (Z.land a b) (Z.land a c)) (Z.land b c).
Definition bsig0 (x : Z) : Z := Z.lxor (Z.lxor (rotr 2 x) (rotr 13 x)) (rotr 22 x).
Definition bsig1 (x : Z) : Z := Z.lxor (Z.lxor (rotr 6 x) (rotr 11 x)) (rotr 25 x).
Definition ssig0 (x : Z) : Z := Z.lxor (Z.lxor (rotr 7 x) (rotr 18 x)) (Z.shiftr x 3).
Definition ssig1 (x : Z) : Z := Z.lxor (Z.lxor (rotr 17 x) (rotr 19 x)) (Z.shiftr x 10).

(** The first sixty-four primes. *)
Definition is_prime (n : Z) : bool :=
  (1 <? n)
  && forallb (fun d => negb (n mod d =? 0))
       (List.filter (fun d => d * d <=? n) (map Z.of_nat (seq 2 20))).

Definition primes : list Z :=
  Eval vm_compute in List.filter is_prime (map Z.of_nat (seq 2 310)).

(** The integer cube root of [n], below [2 ^ bits], found bit by bit. *)
Fixpoint cube_root (bits : nat) (r n : Z) : Z :=
  match bits with
  | O => r
  | S k =>
      let r' := r + 2 ^ Z.of_nat k in
      cube_root k (if r' * r' * r' <=? n then r' else r) n
  end.

(** The first 32 bits of the fractional part of the cube root of [p]. *)
Definition frac_cube_root (p : Z) : Z := w32 (cube_root 36 0 (p * 2 ^ 96)).

(** The first 32 bits of the fractional part of the square root of [p]. *)
Definition frac_square_root (p : Z) : Z := w32 (Z.sqrt (p * 2 ^ 64)).

Definition round_constants : list Z :=
  Eval vm_compute in map frac_cube_root primes.

Definition initial_hash : list Z :=
  Eval vm_compute in map frac_square_root (firstn 8 primes).

(** Big-endian bytes of the low [8 * n] bits of [x]. *)
Fixpoint be_bytes (n : nat) (x : Z) : list Z :=
  match n with
  | O => []
  | S k => Z.land (Z.shiftr x (8 * Z.of_nat k)) 255 :: be_bytes k x
  end.

(** Message, a 1 bit, zero bits up to 56 modulo 64 bytes, the bit length
    on 64 bits. *)
Definition pad (msg : list Z) : list Z :=
  let len := Z.of_nat (length msg) in
  let zeros := Z.to_nat ((55 - len) mod 64) in
  msg ++ 128 :: repeat 0 zeros ++ be_bytes 8 (8 * len).

Fixpoint words (n : nat) (bs : list Z) : list Z :=
  match n with
  | O => []
  | S k =>
      match bs with
      | b0 :: b1 :: b2 :: b3 :: rest =>
          (Z.shiftl b0 24 + Z.shiftl b1 16 + Z.shiftl b2 8 + b3) :: words k rest
      | _ => []
      end
  end.

(** The message schedule, newest word first. *)
Fixpoint schedule (n : nat) (rw : list Z) : list Z :=
  match n with
  | O => rw
  | S k =>
      let w2 := nth 1 rw 0 in
      let w7 := nth 6 rw 0 in
      let w15 := nth 14 rw 0 in
      let w16 := nth 15 rw 0 in
      schedule k (add32 (add32 (ssig1 w2) w7) (add32 (ssig0 w15) w16) :: rw)
  end.

Definition round (h : list Z) (kw : Z * Z) : list Z :=
  match h with
  | [a; b; c; d; e; f; g; hh] =>
      let t1 := add32 (add32 (add32 hh (bsig1 e)) (add32 (ch e f g) (fst kw))) (snd kw) in
      let t2 := add32 (bsig0 a) (maj a b c) in
      [add32 t1 t2; a; b; c; add32 d t1; e; f; g]
  | _ => h
  end.

Definition zip_add (h h' : list Z) : list Z :=
  map (fun p => add32 (fst p) (snd p)) (combine h h').

Definition compress (h : list Z) (block : list Z) : list Z :=
  let w := rev (schedule 48 (rev (words 16 block))) in
  zip_add h (fold_left round (combine round_constants w) h).

Fixpoint blocks (n : nat) (h : list Z) (bs : list Z) : list Z :=
  match n with
  | O => h
  | S k => blocks k (compress h (firstn 64 bs)) (skipn 64 bs)
  end.

Definition digest (msg : list Z) : list Z :=
  let p := pad msg in
  blocks (length p / 64) initial_hash p.

(** [hashlib.sha256(msg).hexdigest()]. *)
Definition hexdigest (msg : list Z) : string :=
  String.concat "" (map (Py.hex 8) (digest msg)).

End SHA256.

(* ===================================================================== *)
(** ** Responses, failures and the handler monad *)
(* ===================================================================== *)

#[local] Set Warnings "-register-all".

(** JSON values of the response bodies.  [VTime t] is the text
    [t.isoformat() + "Z"] of the timestamp [t]. *)
Inductive value : Type :=
| VStr (s : string)
| VInt (n : Z)
| VTime (t : Z)
| VList (items : list (list (string * value))).

(** A response body: the dict literal of the [return], keys in the order
    written. *)
Abbreviation dict := (list (string * value)).

(** [return body, code]. *)
Record response : Type := Response { body : dict; code : Z }.

(** [d[k]] on a body. *)
Fixpoint field (k : string) (d : dict) : option value :=
  match d with
  | [] => None
  | (k', v) :: rest => if String.eqb k k' then Some v else field k rest
  end.

Definition keys (d : dict) : list string := map fst d.

(** What the database refuses at a flush, each an uncaught exception
    (answered 500). *)
Inductive db_error : Type :=
| UniqueViolation          (* primary key already present *)
| StringTooLong.           (* value longer than its [db.String(n)] column *)

Inductive failure : Type :=
| Abort (status : Z) (message : option string)  (* [abort], [get_or_404] *)
| DBError (e : db_error).

(** A handler over the tables [S]: it fails or answers, and leaves the tables
    in a new state.  A failure leaves them as they were at the failing
    statement. *)
Definition M (S A : Type) : Type := S -> (failure + A) * S.

Definition ret {S A} (a : A) : M S A := fun s => (inr a, s).

Definition bind {S A B} (m : M S A) (k : A -> M S B) : M S B :=
  fun s =>
    match m s with
    | (inr a, s') => k a s'
    | (inl e, s') => (inl e, s')
    end.

Definition raise {S A} (e : failure) : M S A := fun s => (inl e, s).

(** [abort(status, message=...)]. *)
Definition abort {S A} (status : Z) (message : string) : M S A :=
  raise (Abort status (Some message)).

Notation "'do' x <- m ; k" := (bind m (fun x => k))
  (at level 10, x name, m at level 100, k at level 200).
Notation "m ;; k" := (bind m (fun _ => k))
  (at level 100, k at level 200, right associativity).

(** The code a client sees. *)
Definition http_status {S} (r : (failure + response) * S) : Z :=
  match fst r with
  | inr resp => code resp
  | inl (Abort st _) => st
  | inl (DBError _) => 500
  end.

Definition tables_after {S A} (r : (failure + A) * S) : S := snd r.

(** [@jwt_required()]: the body runs only with a valid bearer token. *)
Definition jwt_required {S A} (token_ok : bool) (m : M S A) : M S A :=
  if token_ok then m else raise (Abort 401 None).

(** [@blp.arguments(Schema)]: the body runs only on a payload the schema
    accepts. *)
Definition arguments {S A D} (schema : D -> bool) (view : D -> M S A) (data : D)
  : M S A :=
  if schema data then view data else raise (Abort 422 None).

(** [validate.Length(equal=n)]. *)
Definition length_equal (n : nat) (s : string) : bool :=
  Nat.eqb (String.length s) n.

(** [validate.OneOf(choices)]. *)
Definition one_of (choices : list string) (s : string) : bool :=
  existsb (String.eqb s) choices.

(** A value fits a [db.String(n)] column. *)
Definition varchar (n : nat) (s : string) : bool :=
  Nat.leb (String.length s) n.

Section Table.
Context {R : Type}.

(** [Model.query.get_or_404(key)]. *)
Definition get_or_404 (key : string) : M (gmap string R) R :=
  fun t =>
    match t !! key with
    | Some row => (inr row, t)
    | None => (inl (Abort 404 None), t)
    end.

(** [db.session.add(row); db.session.commit()] for a new row: an INSERT. *)
Definition add_commit (key : string) (row : R) (fits : bool)
  : M (gmap string R) unit :=
  fun t =>
    if negb fits then (inl (DBError StringTooLong), t)
    else
      match t !! key with
      | Some _ => (inl (DBError UniqueViolation), t)
      | None => (inr tt, <[key := row]> t)
      end.
End Table.

(** [class OtpVerifySchema]. *)
Record OtpVerify : Type := { otp : string }.

Definition OtpVerifySchema (d : OtpVerify) : bool := length_equal 6 (otp d).

(** The four status texts of a link request. *)
Definition PENDING_OTP : string := "PENDING_OTP".
Definition OTP_SENT : string := "OTP_SENT".
Definition OTP_VERIFIED : string := "OTP_VERIFIED".
Definition LINKED : string := "LINKED".

(* ===================================================================== *)
(** ** [pan_app.py]: the PAN linking service *)
(* ===================================================================== *)

Module Pan.

(** [class PanRequestModel]: a row of [pan_link_requests].  The primary
    key column [request_id] is the key of the table, so
    [request.request_id] is the key a row was loaded by. *)
Record PanRequestModel : Type := {
  pan_number : string;
  customer_name : string;
  status : string;
  created_at : Z;
  updated_at : Z
}.

#[global] Instance PanRequestModel_eq_dec : EqDecision PanRequestModel.
Proof. solve_decision. Defined.

Abbreviation table := (gmap string PanRequestModel).

(** [request.status = v]. *)
Definition set_status (v : string) (r : PanRequestModel) : PanRequestModel :=
  {| pan_number := pan_number r; customer_name := customer_name r;
     status := v; created_at := created_at r; updated_at := updated_at r |}.

(** [onupdate=datetime.utcnow]. *)
Definition touch (now : Z) (r : PanRequestModel) : PanRequestModel :=
  {| pan_number := pan_number r; customer_name := customer_name r;
     status := status r; created_at := created_at r; updated_at := now |}.

(** [db.session.commit()] after assignments to a loaded row: an UPDATE of
    the row when a column has a new value, no statement otherwise. *)
Definition commit (now : Z) (key : string) (loaded current : PanRequestModel)
  : M table unit :=
  fun t =>
    if decide (current = loaded) then (inr tt, t)
    else (inr tt, <[key := touch now current]> t).

(** The columns of a new row fit their declared lengths. *)
Definition fits (key : string) (r : PanRequestModel) : bool :=
  varchar 50 key && varchar 10 (pan_number r)
  && varchar 100 (customer_name r) && varchar 30 (status r).

(** *** Schemas *)

Definition is_upper (c : ascii) : bool :=
  let n := nat_of_ascii c in Nat.leb 65 n && Nat.leb n 90.

Definition is_digit (c : ascii) : bool :=
  let n := nat_of_ascii c in Nat.leb 48 n && Nat.leb n 57.

Fixpoint all_chars (p : ascii -> bool) (s : string) : bool :=
  match s with
  | EmptyString => true
  | String c r => p c && all_chars p r
  end.

(** The whole string is [[A-Z]{5}[0-9]{4}[A-Z]]. *)
Definition pan_pattern (s : string) : bool :=
  length_equal 10 s
  && all_chars is_upper (String.substring 0 5 s)
  && all_chars is_digit (String.substring 5 4 s)
  && all_chars is_upper (String.substring 9 1 s).

Definition newline : string := String (ascii_of_nat 10) EmptyString.

(** [re.match(r"^[A-Z]{5}[0-9]{4}[A-Z]$", s)]: [$] also matches just before
    a newline that ends the string. *)
Definition pan_regexp (s : string) : bool :=
  pan_pattern s
  || (String.eqb (Py.last_chars 1 s) newline
      && pan_pattern (String.substring 0 (String.length s - 1) s)).

(** [class PanStartSchema]. *)
Record PanStart : Type := { panNumber : string; customerName : string }.

Definition PanStartSchema (d : PanStart) : bool := pan_regexp (panNumber d).

(** *** Routes *)

(** [PanStart.post]. *)
Definition PanStart_post (u now : Z) (data : PanStart) : M table response :=
  let request_id := Py.fresh_id "PAN_" u in
  let new_request :=
    {| pan_number := panNumber data; customer_name := customerName data;
       status := PENDING_OTP; created_at := now; updated_at := now |} in
  add_commit request_id new_request (fits request_id new_request);;
  ret (Response
         [ ("requestId", VStr request_id);
           ("status", VStr (status new_request));
           ("message", VStr "Linking request initiated. Please send OTP.") ]
         201).

(** [PanSendOtp.post]. *)
Definition PanSendOtp_post (now : Z) (requestId : string) : M table response :=
  do request <- get_or_404 requestId;
  let request' := set_status OTP_SENT request in
  commit now requestId request request';;
  ret (Response
         [ ("requestId", VStr requestId);
           ("status", VStr (status request'));
           ("message", VStr "OTP has been sent to registered mobile number") ]
         200).

(** [PanVerifyOtp.post]; the submitted [data] is not looked at. *)
Definition PanVerifyOtp_post (now : Z) (data : OtpVerify) (requestId : string)
  : M table response :=
  do request <- get_or_404 requestId;
  let request' := set_status OTP_VERIFIED request in
  commit now requestId request request';;
  ret (Response
         [ ("requestId", VStr requestId);
           ("status", VStr (status request'));
           ("message", VStr "OTP verified successfully") ]
         200).

(** [PanFinalize.post]. *)
Definition PanFinalize_post (now : Z) (requestId : string) : M table response :=
  do request <- get_or_404 requestId;
  (if negb (String.eqb (status request) OTP_VERIFIED)
   then abort 400 "OTP must be verified before finalizing link."
   else ret tt);;
  let request' := set_status LINKED request in
  commit now requestId request request';;
  ret (Response
         [ ("requestId", VStr requestId);
           ("status", VStr (status request'));
           ("message", VStr "PAN has been successfully linked to the account") ]
         200).

(** [PanStatus.get]. *)
Definition PanStatus_get (requestId : string) : M table response :=
  do request <- get_or_404 requestId;
  ret (Response
         [ ("requestId", VStr requestId);
           ("status", VStr (status request));
           ("pan_number", VStr (String.append "******" (Py.last_chars 4 (pan_number request))));
           ("updatedAt", VTime (updated_at request)) ]
         200).

(** The decorated views. *)
Definition PanStart_view (token_ok : bool) (u now : Z) : PanStart -> M table response :=
  fun data => jwt_required token_ok (arguments PanStartSchema (PanStart_post u now) data).
Definition PanSendOtp_view (token_ok : bool) (now : Z) (requestId : string)
  : M table response :=
  jwt_required token_ok (PanSendOtp_post now requestId).
Definition PanVerifyOtp_view (token_ok : bool) (now : Z) (requestId : string)
  : OtpVerify -> M table response :=
  fun data =>
    jwt_required token_ok
      (arguments OtpVerifySchema (fun d => PanVerifyOtp_post now d requestId) data).
Definition PanFinalize_view (token_ok : bool) (now : Z) (requestId : string)
  : M table response :=
  jwt_required token_ok (PanFinalize_post now requestId).
Definition PanStatus_view (token_ok : bool) (requestId : string) : M table response :=
  jwt_required token_ok (PanStatus_get requestId).

(** One request to the service. *)
Inductive request : Type :=
| start (u now : Z) (data : PanStart)
| send_otp (now : Z) (requestId : string)
| verify_otp (now : Z) (data : OtpVerify) (requestId : string)
| finalize (now : Z) (requestId : string)
| get_status (requestId : string).

Definition handle (rq : request) : M table response :=
  match rq with
  | start u now data => PanStart_post u now data
  | send_otp now requestId => PanSendOtp_post now requestId
  | verify_otp now data requestId => PanVerifyOtp_post now data requestId
  | finalize now requestId => PanFinalize_post now requestId
  | get_status requestId => PanStatus_get requestId
  end.

(** The table after a sequence of requests, served one after the other. *)
Fixpoint serve (rqs : list request) (t : table) : table :=
  match rqs with
  | [] => t
  | rq :: rest => serve rest (snd (handle rq t))
  end.

End Pan.

(* ===================================================================== *)
(** ** [aadhaar_app.py]: the Aadhaar linking service *)
(* ===================================================================== *)

Module Aadhaar.

(** [class AadhaarRequestModel]: a row of [aadhaar_link_requests], keyed by
    [request_id] in the table. *)
Record AadhaarRequestModel : Type := {
  aadhaar_hash : string;
  masked_aadhaar : string;
  status : string;
  consent_obtained : bool;
  created_at : Z;
  updated_at : Z
}.

#[global] Instance AadhaarRequestModel_eq_dec : EqDecision AadhaarRequestModel.
Proof. solve_decision. Defined.

Abbreviation table := (gmap string AadhaarRequestModel).

(** [request.status = v]. *)
Definition set_status (v : string) (r : AadhaarRequestModel) : AadhaarRequestModel :=
  {| aadhaar_hash := aadhaar_hash r; masked_aadhaar := masked_aadhaar r;
     status := v; consent_obtained := consent_obtained r;
     created_at := created_at r; updated_at := updated_at r |}.

(** [onupdate=datetime.utcnow]. *)
Definition touch (now : Z) (r : AadhaarRequestModel) : AadhaarRequestModel :=
  {| aadhaar_hash := aadhaar_hash r; masked_aadhaar := masked_aadhaar r;
     status := status r; consent_obtained := consent_obtained r;
     created_at := created_at r; updated_at := now |}.

(** [db.session.commit()] after assignments to a loaded row. *)
Definition commit (now : Z) (key : string) (loaded current : AadhaarRequestModel)
  : M table unit :=
  fun t =>
    if decide (current = loaded) then (inr tt, t)
    else (inr tt, <[key := touch now current]> t).

Definition fits (key : string) (r : AadhaarRequestModel) : bool :=
  varchar 50 key && varchar 64 (aadhaar_hash r)
  && varchar 15 (masked_aadhaar r) && varchar 30 (status r).

(** [class AadhaarStartSchema]. *)
Record AadhaarStart : Type := { aadhaarNumber : string; consentObtained : bool }.

Definition AadhaarStartSchema (d : AadhaarStart) : bool :=
  length_equal 12 (aadhaarNumber d) && Bool.eqb (consentObtained d) true.

(** The two derived columns of [AadhaarStart.post]. *)
Definition a_hash (aadhaarNumber : string) : string :=
  SHA256.hexdigest (Py.encode aadhaarNumber).

Definition masked (aadhaarNumber : string) : string :=
  String.append "XXXX-XXXX-" (Py.last_chars 4 aadhaarNumber).

(** [AadhaarStart.post]. *)
Definition AadhaarStart_post (u now : Z) (data : AadhaarStart) : M table response :=
  let request_id := Py.fresh_id "ADR_" u in
  let new_request :=
    {| aadhaar_hash := a_hash (aadhaarNumber data);
       masked_aadhaar := masked (aadhaarNumber data);
       status := PENDING_OTP;
       consent_obtained := consentObtained data;
       created_at := now; updated_at := now |} in
  add_commit request_id new_request (fits request_id new_request);;
  ret (Response
         [ ("requestId", VStr request_id);
           ("status", VStr (status new_request));
           ("message", VStr "Aadhaar linking initiated. Consent verified.") ]
         201).

(** [AadhaarSendOtp.post]. *)
Definition AadhaarSendOtp_post (now : Z) (requestId : string) : M table response :=
  do request <- get_or_404 requestId;
  let request' := set_status OTP_SENT request in
  commit now requestId request request';;
  ret (Response
         [ ("requestId", VStr requestId);
           ("status", VStr (status request'));
           ("message", VStr "OTP successfully triggered via UIDAI gateway") ]
         200).

(** [AadhaarVerifyOtp.post]; the submitted [data] is not looked at. *)
Definition AadhaarVerifyOtp_post (now : Z) (data : OtpVerify) (requestId : string)
  : M table response :=
  do request <- get_or_404 requestId;
  let request' := set_status OTP_VERIFIED request in
  commit now requestId request request';;
  ret (Response
         [ ("requestId", VStr requestId);
           ("status", VStr (status request'));
           ("message", VStr "UIDAI OTP validation successful") ]
         200).

(** [AadhaarFinalize.post]. *)
Definition AadhaarFinalize_post (now : Z) (requestId : string) : M table response :=
  do request <- get_or_404 requestId;
  (if negb (String.eqb (status request) OTP_VERIFIED)
   then abort 400 "Aadhaar OTP must be verified before final link."
   else ret tt);;
  let request' := set_status LINKED request in
  commit now requestId request request';;
  ret (Response
         [ ("requestId", VStr requestId);
           ("status", VStr (status request'));
           ("maskedAadhaar", VStr (masked_aadhaar request'));
           ("message", VStr "Aadhaar successfully linked to the primary account.") ]
         200).

(** [AadhaarStatus.get]. *)
Definition AadhaarStatus_get (requestId : string) : M table response :=
  do request <- get_or_404 requestId;
  ret (Response
         [ ("requestId", VStr requestId);
           ("status", VStr (status request));
           ("maskedAadhaar", VStr (masked_aadhaar request));
           ("updatedAt", VTime (updated_at request)) ]
         200).

(** The decorated views. *)
Definition AadhaarStart_view (token_ok : bool) (u now : Z)
  : AadhaarStart -> M table response :=
  fun data =>
    jwt_required token_ok (arguments AadhaarStartSchema (AadhaarStart_post u now) data).
Definition AadhaarSendOtp_view (token_ok : bool) (now : Z) (requestId : string)
  : M table response :=
  jwt_required token_ok (AadhaarSendOtp_post now requestId).
Definition AadhaarVerifyOtp_view (token_ok : bool) (now : Z) (requestId : string)
  : OtpVerify -> M table response :=
  fun data =>
    jwt_required token_ok
      (arguments OtpVerifySchema (fun d => AadhaarVerifyOtp_post now d requestId) data).
Definition AadhaarFinalize_view (token_ok : bool) (now : Z) (requestId : string)
  : M table response :=
  jwt_required token_ok (AadhaarFinalize_post now requestId).
Definition AadhaarStatus_view (token_ok : bool) (requestId : string)
  : M table response :=
  jwt_required token_ok (AadhaarStatus_get requestId).

(** One request to the service. *)
Inductive request : Type :=
| start (u now : Z) (data : AadhaarStart)
| send_otp (now : Z) (requestId : string)
| verify_otp (now : Z) (data : OtpVerify) (requestId : string)
| finalize (now : Z) (requestId : string)
| get_status (requestId : string).

Definition handle (rq : request) : M table response :=
  match rq with
  | start u now data => AadhaarStart_post u now data
  | send_otp now requestId => AadhaarSendOtp_post now requestId
  | verify_otp now data requestId => AadhaarVerifyOtp_post now data requestId
  | finalize now requestId => AadhaarFinalize_post now requestId
  | get_status requestId => AadhaarStatus_get requestId
  end.

Fixpoint serve (rqs : list request) (t : table) : table :=
  match rqs with
  | [] => t
  | rq :: rest => serve rest (snd (handle rq t))
  end.

End Aadhaar.

(* ===================================================================== *)
(** ** [app.py]: the KYC onboarding service *)
(* ===================================================================== *)

Module Kyc.

(** [class SessionModel]: a row of [kyc_sessions], keyed by [id] in the
    table.  The [documents] relationship is [documents_of] below. *)
Record SessionModel : Type := {
  kyc_purpose : string;
  jurisdiction : string;
  status : string;
  created_at : Z
}.

(** [class DocumentModel]: a row of [kyc_documents]. *)
Record DocumentModel : Type := {
  id : string;
  session_id : string;
  document_type : string;
  side : string;
  country : string;
  state : string;
  uploaded_at : Z
}.

(** The two tables; documents in the order they were inserted. *)
Record tables : Type := {
  kyc_sessions : gmap string SessionModel;
  kyc_documents : list DocumentModel
}.

Definition empty : tables := {| kyc_sessions := ∅; kyc_documents := [] |}.

Definition CREATED : string := "CREATED".
Definition UPLOADED : string := "UPLOADED".

(** [class SessionSchema]; [customer] is required and not used.  The payload
    keys [jurisdiction], [side] and [country] carry a final underscore here,
    to tell them from the columns of the same name. *)
Record Session : Type := {
  kycPurpose : string;
  jurisdiction_ : string;
  customer : dict
}.

Definition SessionSchema (d : Session) : bool := one_of ["IN"] (jurisdiction_ d).

(** [class KycDocSchema]. *)
Record KycDoc : Type := {
  documentType : string;
  side_ : string;
  country_ : string
}.

Definition KycDocSchema (d : KycDoc) : bool :=
  one_of ["PAN"; "AADHAAR"; "PASSPORT"; "VOTER_ID"] (documentType d)
  && one_of ["FRONT"; "BACK"] (side_ d).

Definition session_fits (key : string) (s : SessionModel) : bool :=
  varchar 50 key && varchar 100 (kyc_purpose s)
  && varchar 10 (jurisdiction s) && varchar 20 (status s).

Definition document_fits (d : DocumentModel) : bool :=
  varchar 50 (id d) && varchar 50 (session_id d) && varchar 50 (document_type d)
  && varchar 10 (side d) && varchar 50 (country d) && varchar 20 (state d).

(** [SessionModel.query.get_or_404(key)]. *)
Definition session_get_or_404 (key : string) : M tables SessionModel :=
  fun t =>
    match get_or_404 key (kyc_sessions t) with
    | (r, _) => (r, t)
    end.

(** [db.session.add(new_session); db.session.commit()]. *)
Definition add_session (key : string) (s : SessionModel) : M tables unit :=
  fun t =>
    match add_commit key s (session_fits key s) (kyc_sessions t) with
    | (r, sessions') =>
        (r, {| kyc_sessions := sessions'; kyc_documents := kyc_documents t |})
    end.

(** [db.session.add(new_doc); db.session.commit()]. *)
Definition add_document (d : DocumentModel) : M tables unit :=
  fun t =>
    if negb (document_fits d) then (inl (DBError StringTooLong), t)
    else if existsb (fun d' => String.eqb (id d') (id d)) (kyc_documents t)
    then (inl (DBError UniqueViolation), t)
    else (inr tt, {| kyc_sessions := kyc_sessions t;
                     kyc_documents := kyc_documents t ++ [d] |}).

(** [session.documents]: the documents whose foreign key is the session. *)
Definition documents_of (sessionId : string) (t : tables) : list DocumentModel :=
  List.filter (fun d => String.eqb (session_id d) sessionId) (kyc_documents t).

Definition documents (sessionId : string) : M tables (list DocumentModel) :=
  fun t => (inr (documents_of sessionId t), t).

(** [Sessions.post]. *)
Definition Sessions_post (u now : Z) (data : Session) : M tables response :=
  let session_id := Py.fresh_id "sess_" u in
  let new_session :=
    {| kyc_purpose := kycPurpose data; jurisdiction := jurisdiction_ data;
       status := CREATED; created_at := now |} in
  add_session session_id new_session;;
  ret (Response
         [ ("sessionId", VStr session_id); ("status", VStr (status new_session)) ]
         201).

(** [Docs.post]. *)
Definition Docs_post (u now : Z) (data : KycDoc) (sessionId : string)
  : M tables response :=
  do session <- session_get_or_404 sessionId;
  let doc_id := Py.fresh_id "doc_" u in
  let new_doc :=
    {| id := doc_id; session_id := sessionId;
       document_type := documentType data; side := side_ data;
       country := country_ data; state := UPLOADED; uploaded_at := now |} in
  add_document new_doc;;
  ret (Response
         [ ("documentId", VStr (id new_doc)); ("status", VStr (state new_doc)) ]
         201).

(** [Summary.get]. *)
Definition Summary_get (sessionId : string) : M tables response :=
  do session <- session_get_or_404 sessionId;
  do session_documents <- documents sessionId;
  let docs :=
    map (fun d => [ ("id", VStr (id d)); ("type", VStr (document_type d));
                    ("status", VStr (state d)) ])
        session_documents in
  ret (Response
         [ ("sessionId", VStr sessionId);
           ("status", VStr (status session));
           ("documentCount", VInt (Z.of_nat (length docs)));
           ("documents", VList docs) ]
         200).

(** The decorated views. *)
Definition Sessions_view (token_ok : bool) (u now : Z) : Session -> M tables response :=
  fun data => jwt_required token_ok (arguments SessionSchema (Sessions_post u now) data).
Definition Docs_view (token_ok : bool) (u now : Z) (sessionId : string)
  : KycDoc -> M tables response :=
  fun data =>
    jwt_required token_ok
      (arguments KycDocSchema (fun d => Docs_post u now d sessionId) data).
Definition Summary_view (token_ok : bool) (sessionId : string) : M tables response :=
  jwt_required token_ok (Summary_get sessionId).

(** One request to the service. *)
Inductive request : Type :=
| create_session (u now : Z) (data : Session)
| add_doc (u now : Z) (data : KycDoc) (sessionId : string)
| summary (sessionId : string).

Definition handle (rq : request) : M tables response :=
  match rq with
  | create_session u now data => Sessions_post u now data
  | add_doc u now data sessionId => Docs_post u now data sessionId
  | summary sessionId => Summary_get sessionId
  end.

Fixpoint serve (rqs : list request) (t : tables) : tables :=
  match rqs with
  | [] => t
  | rq :: rest => serve rest (snd (handle rq t))
  end.

End Kyc.

(* ===================================================================== *)
(** ** Vocabulary of the properties *)
(* ===================================================================== *)

(** Position of a status text in the order
    PENDING_OTP, OTP_SENT, OTP_VERIFIED, LINKED. *)
Definition rank (s : string) : option nat :=
  if String.eqb s PENDING_OTP then Some 0%nat
  else if String.eqb s OTP_SENT then Some 1%nat
  else if String.eqb s OTP_VERIFIED then Some 2%nat
  else if String.eqb s LINKED then Some 3%nat
  else None.

(** [s'] is not before [s] in that order. *)
Definition not_backward (s s' : string) : Prop :=
  exists n n', rank s = Some n /\ rank s' = Some n' /\ (n <= n')%nat.

(** What one request does to the status of a stored row: nothing, or one of
    the three assignments of the handlers. *)
Inductive transition : string -> string -> Prop :=
| stays (s : string) : transition s s
| sent (s : string) : transition s OTP_SENT
| verified (s : string) : transition s OTP_VERIFIED
| linked : transition OTP_VERIFIED LINKED.

(** The handler answered (did not fail). *)
Definition answered {S} (r : (failure + response) * S) : Prop :=
  exists resp, fst r = inr resp.

(** Every session is CREATED and every document UPLOADED. *)
Definition all_created_uploaded (t : Kyc.tables) : Prop :=
  (forall key s, Kyc.kyc_sessions t !! key = Some s -> Kyc.status s = Kyc.CREATED)
  /\ Forall (fun d => Kyc.state d = Kyc.UPLOADED) (Kyc.kyc_documents t).

(** ** Sample requests *)

Module Sample.

Definition adr_uuid : Z := 0xabcdef0123456789abcdef0123456789.
Definition adr_id : string := "ADR_ABCDEF01".

(** The scenario: create with 123456789012, send-otp, verify-otp with
    000000, finalize. *)
Definition adr_create : Aadhaar.request :=
  Aadhaar.start adr_uuid 100
    {| Aadhaar.aadhaarNumber := "123456789012"; Aadhaar.consentObtained := true |}.

Definition adr_lifecycle : list Aadhaar.request :=
  [ adr_create;
    Aadhaar.send_otp 101 adr_id;
    Aadhaar.verify_otp 102 {| otp := "000000" |} adr_id;
    Aadhaar.finalize 103 adr_id ].

Definition adr_row (st : string) (updated : Z) : Aadhaar.AadhaarRequestModel :=
  {| Aadhaar.aadhaar_hash :=
       "2a33349e7e606a8ad2e30e3c84521f9377450cf09083e162e0a9b1480ce0f972";
     Aadhaar.masked_aadhaar := "XXXX-XXXX-9012";
     Aadhaar.status := st;
     Aadhaar.consent_obtained := true;
     Aadhaar.created_at := 100;
     Aadhaar.updated_at := updated |}.

Definition pan_uuid : Z := 0x1f2e3d4c5b6a79880123456789abcdef.
Definition pan_id : string := "PAN_1F2E3D4C".

Definition pan_data : Pan.PanStart :=
  {| Pan.panNumber := "ABCDE1234F"; Pan.customerName := "A Kumar" |}.

Definition pan_lifecycle : list Pan.request :=
  [ Pan.start pan_uuid 100 pan_data;
    Pan.send_otp 101 pan_id;
    Pan.verify_otp 102 {| otp := "000000" |} pan_id;
    Pan.finalize 103 pan_id ].

Definition pan_row (st : string) (updated : Z) : Pan.PanRequestModel :=
  {| Pan.pan_number := "ABCDE1234F";
     Pan.customer_name := "A Kumar";
     Pan.status := st;
     Pan.created_at := 100;
     Pan.updated_at := updated |}.

Definition kyc_uuid : Z := 0x00c0ffee000000000000000000000000.
Definition kyc_id : string := "sess_00C0FFEE".

Definition kyc_requests : list Kyc.request :=
  [ Kyc.create_session kyc_uuid 100
      {| Kyc.kycPurpose := "ACCOUNT_OPENING"; Kyc.jurisdiction_ := "IN";
         Kyc.customer := [] |};
    Kyc.add_doc 0xd0c00001000000000000000000000000 101
      {| Kyc.documentType := "PAN"; Kyc.side_ := "FRONT"; Kyc.country_ := "IN" |}
      kyc_id;
    Kyc.summary kyc_id ].

End Sample.

(* ===================================================================== *)
(** ** Vocabulary of the further properties *)
(* ===================================================================== *)

(** A digit or one of A to F. *)
Definition is_upper_hex (c : ascii) : bool :=
  let n := nat_of_ascii c in
  (Nat.leb 48 n && Nat.leb n 57) || (Nat.leb 65 n && Nat.leb n 70).

(** The identifier a request addresses: the generated one for a create, the
    path parameter otherwise. *)
Definition pan_subject (rq : Pan.request) : string :=
  match rq with
  | Pan.start u _ _ => Py.fresh_id "PAN_" u
  | Pan.send_otp _ requestId => requestId
  | Pan.verify_otp _ _ requestId => requestId
  | Pan.finalize _ requestId => requestId
  | Pan.get_status requestId => requestId
  end.

Definition aadhaar_subject (rq : Aadhaar.request) : string :=
  match rq with
  | Aadhaar.start u _ _ => Py.fresh_id "ADR_" u
  | Aadhaar.send_otp _ requestId => requestId
  | Aadhaar.verify_otp _ _ requestId => requestId
  | Aadhaar.finalize _ requestId => requestId
  | Aadhaar.get_status requestId => requestId
  end.

(** Primary and foreign key of the document table: no two documents share
    an id, and every document belongs to a stored session. *)
Definition kyc_keys_sound (t : Kyc.tables) : Prop :=
  NoDup (map Kyc.id (Kyc.kyc_documents t))
  /\ forall d, d ∈ Kyc.kyc_documents t ->
               is_Some (Kyc.kyc_sessions t !! Kyc.session_id d).

(** The [documentCount] and the [documents] of a summary body. *)
Definition summary_count (sessionId : string) (t : Kyc.tables) : option value :=
  match fst (Kyc.Summary_get sessionId t) with
  | inr resp => field "documentCount" (body resp)
  | inl _ => None
  end.

(* ===================================================================== *)
(** * Properties *)
(* ===================================================================== *)

(** ** Strings: what [s[-n:]] is *)

Lemma append_cons (c : ascii) (a b : string) :
  String.append (String c a) b = String c (String.append a b).
Proof. reflexivity. Qed.

Lemma append_length (a b : string) :
  String.length (String.append a b) = (String.length a + String.length b)%nat.
Proof.
  induction a as [| c a IH]; [reflexivity |].
  rewrite append_cons. simpl. now rewrite IH.
Qed.

Lemma substring_whole (s : string) :
  String.substring 0 (String.length s) s = s.
Proof. induction s as [| c s IH]; simpl; [reflexivity | now rewrite IH]. Qed.

Lemma substring_split (s : string) (k : nat) :
  (k <= String.length s)%nat ->
  s = String.append (String.substring 0 k s)
                    (String.substring k (String.length s - k) s).
Proof.
  revert k. induction s as [| c s IH]; intros k Hk.
  - destruct k; simpl in *; [reflexivity | lia].
  - destruct k as [| k].
    + rewrite Nat.sub_0_r, substring_whole. reflexivity.
    + simpl. rewrite append_cons. f_equal. apply IH. simpl in Hk. lia.
Qed.

Lemma substring_length (s : string) (k m : nat) :
  (k + m <= String.length s)%nat ->
  String.length (String.substring k m s) = m.
Proof.
  revert k m. induction s as [| c s IH]; intros k m H; simpl in *.
  - destruct k, m; simpl in *; try reflexivity; lia.
  - destruct k as [| k].
    + destruct m as [| m]; simpl; [reflexivity |].
      f_equal. apply (IH 0%nat). simpl. lia.
    + apply IH. lia.
Qed.

(** With at least [n] characters, [s[-n:]] has [n] characters and ends
    [s]. *)
Lemma last_chars_is_suffix (n : nat) (s : string) :
  (n <= String.length s)%nat ->
  String.length (Py.last_chars n s) = n
  /\ exists front, s = String.append front (Py.last_chars n s).
Proof.
  intros H. unfold Py.last_chars. split.
  - apply substring_length. lia.
  - exists (String.substring 0 (String.length s - n) s).
    pose proof (substring_split s (String.length s - n)) as Hs.
    replace (String.length s - (String.length s - n))%nat with n in Hs by lia.
    apply Hs. lia.
Qed.

Lemma length_equal_spec (n : nat) (s : string) :
  length_equal n s = true <-> String.length s = n.
Proof. unfold length_equal. apply Nat.eqb_eq. Qed.

Lemma fresh_id_length (prefix : string) (u : Z) :
  String.length (Py.fresh_id prefix u) = (String.length prefix + 8)%nat.
Proof.
  unfold Py.fresh_id, Py.uuid_hex, Py.first_chars.
  generalize (u mod 2 ^ 128). intros x.
  rewrite append_length. reflexivity.
Qed.

(** ** The table primitives *)

Lemma get_or_404_found {R} (key : string) (t : gmap string R) (row : R) :
  t !! key = Some row -> get_or_404 key t = (inr row, t).
Proof. intros H. unfold get_or_404. now rewrite H. Qed.

Lemma get_or_404_missing {R} (key : string) (t : gmap string R) :
  t !! key = None -> get_or_404 key t = (inl (Abort 404 None), t).
Proof. intros H. unfold get_or_404. now rewrite H. Qed.

Lemma add_commit_cases {R} (key : string) (row : R) (ok : bool) (t : gmap string R) :
  (add_commit key row ok t = (inr tt, <[key := row]> t)
   /\ ok = true /\ t !! key = None)
  \/ (exists e, add_commit key row ok t = (inl (DBError e), t)
                /\ (ok = false \/ is_Some (t !! key))).
Proof.
  unfold add_commit. destruct ok; simpl.
  - destruct (t !! key) eqn:E; [right | left]; eauto.
  - right. eauto.
Qed.

Ltac run := unfold bind, ret, abort, raise in *; simpl in *.

(** ** PAN service: what each handler computes *)

Lemma pan_commit_status (now : Z) (key v : string) (r : Pan.PanRequestModel)
      (t : Pan.table) :
  Pan.commit now key r (Pan.set_status v r) t =
    (inr tt, if String.eqb (Pan.status r) v then t
             else <[key := Pan.touch now (Pan.set_status v r)]> t).
Proof.
  unfold Pan.commit.
  destruct (String.eqb_spec (Pan.status r) v) as [E | E];
    destruct (decide (Pan.set_status v r = r)) as [E' | E']; try reflexivity.
  - exfalso. apply E'. destruct r; simpl in *; now subst.
  - exfalso. apply E. now rewrite <- E'.
Qed.

Lemma pan_send_otp_found (now : Z) (requestId : string) (t : Pan.table) r :
  t !! requestId = Some r ->
  Pan.PanSendOtp_post now requestId t =
    (inr (Response
            [ ("requestId", VStr requestId); ("status", VStr OTP_SENT);
              ("message", VStr "OTP has been sent to registered mobile number") ]
            200),
     if String.eqb (Pan.status r) OTP_SENT then t
     else <[requestId := Pan.touch now (Pan.set_status OTP_SENT r)]> t).
Proof.
  intros H. unfold Pan.PanSendOtp_post, bind.
  rewrite (get_or_404_found _ _ _ H), pan_commit_status. reflexivity.
Qed.

Lemma pan_verify_otp_found (now : Z) (data : OtpVerify) (requestId : string)
      (t : Pan.table) r :
  t !! requestId = Some r ->
  Pan.PanVerifyOtp_post now data requestId t =
    (inr (Response
            [ ("requestId", VStr requestId); ("status", VStr OTP_VERIFIED);
              ("message", VStr "OTP verified successfully") ]
            200),
     if String.eqb (Pan.status r) OTP_VERIFIED then t
     else <[requestId := Pan.touch now (Pan.set_status OTP_VERIFIED r)]> t).
Proof.
  intros H. unfold Pan.PanVerifyOtp_post, bind.
  rewrite (get_or_404_found _ _ _ H), pan_commit_status. reflexivity.
Qed.

Lemma pan_finalize_found (now : Z) (requestId : string) (t : Pan.table) r :
  t !! requestId = Some r ->
  Pan.PanFinalize_post now requestId t =
    if String.eqb (Pan.status r) OTP_VERIFIED
    then (inr (Response
                 [ ("requestId", VStr requestId); ("status", VStr LINKED);
                   ("message", VStr "PAN has been successfully linked to the account") ]
                 200),
          <[requestId := Pan.touch now (Pan.set_status LINKED r)]> t)
    else (inl (Abort 400 (Some "OTP must be verified before finalizing link.")), t).
Proof.
  intros H. unfold Pan.PanFinalize_post. unfold bind at 1.
  rewrite (get_or_404_found _ _ _ H).
  destruct (String.eqb_spec (Pan.status r) OTP_VERIFIED) as [E | E]; run.
  - rewrite pan_commit_status, E. reflexivity.
  - reflexivity.
Qed.

Lemma pan_status_found (requestId : string) (t : Pan.table) r :
  t !! requestId = Some r ->
  Pan.PanStatus_get requestId t =
    (inr (Response
            [ ("requestId", VStr requestId); ("status", VStr (Pan.status r));
              ("pan_number",
               VStr (String.append "******" (Py.last_chars 4 (Pan.pan_number r))));
              ("updatedAt", VTime (Pan.updated_at r)) ]
            200), t).
Proof.
  intros H. unfold Pan.PanStatus_get, bind.
  rewrite (get_or_404_found _ _ _ H). reflexivity.
Qed.

Lemma pan_missing (requestId : string) (t : Pan.table) :
  t !! requestId = None ->
  (forall now, Pan.PanSendOtp_post now requestId t = (inl (Abort 404 None), t))
  /\ (forall now data,
        Pan.PanVerifyOtp_post now data requestId t = (inl (Abort 404 None), t))
  /\ (forall now, Pan.PanFinalize_post now requestId t = (inl (Abort 404 None), t))
  /\ Pan.PanStatus_get requestId t = (inl (Abort 404 None), t).
Proof.
  intros H. repeat split; intros;
    unfold Pan.PanSendOtp_post, Pan.PanVerifyOtp_post, Pan.PanFinalize_post,
      Pan.PanStatus_get, bind;
    now rewrite (get_or_404_missing _ _ H).
Qed.

Lemma pan_start_cases (u now : Z) (data : Pan.PanStart) (t : Pan.table) :
  let key := Py.fresh_id "PAN_" u in
  let row := {| Pan.pan_number := Pan.panNumber data;
                Pan.customer_name := Pan.customerName data;
                Pan.status := PENDING_OTP;
                Pan.created_at := now; Pan.updated_at := now |} in
  (Pan.PanStart_post u now data t =
     (inr (Response
             [ ("requestId", VStr key); ("status", VStr PENDING_OTP);
               ("message", VStr "Linking request initiated. Please send OTP.") ]
             201),
      <[key := row]> t)
   /\ Pan.fits key row = true /\ t !! key = None)
  \/ (exists e, Pan.PanStart_post u now data t = (inl (DBError e), t)
                /\ (Pan.fits key row = false \/ is_Some (t !! key))).
Proof.
  intros key row. unfold Pan.PanStart_post, bind. fold key. fold row.
  destruct (add_commit_cases key row (Pan.fits key row) t)
    as [(-> & ? & ?) | (e & -> & ?)]; [left | right]; eauto.
Qed.

(** One request and one stored row: the row stays, its PAN, name and
    creation time stay, and its status makes one [transition]. *)
Lemma pan_handle_row (rq : Pan.request) (t : Pan.table) (key : string) r :
  t !! key = Some r ->
  exists r', snd (Pan.handle rq t) !! key = Some r'
    /\ Pan.pan_number r' = Pan.pan_number r
    /\ Pan.customer_name r' = Pan.customer_name r
    /\ Pan.created_at r' = Pan.created_at r
    /\ transition (Pan.status r) (Pan.status r')
    /\ (Pan.status r' = Pan.status r -> r' = r).
Proof.
  intros H.
  assert (Hsame : exists r', t !! key = Some r'
    /\ Pan.pan_number r' = Pan.pan_number r
    /\ Pan.customer_name r' = Pan.customer_name r
    /\ Pan.created_at r' = Pan.created_at r
    /\ transition (Pan.status r) (Pan.status r')
    /\ (Pan.status r' = Pan.status r -> r' = r)).
  { exists r. repeat split; auto. constructor. }
  assert (Hset : forall now v k r0,
    t !! k = Some r0 -> String.eqb (Pan.status r0) v = false ->
    (k = key -> transition (Pan.status r) v) ->
    exists r', <[k := Pan.touch now (Pan.set_status v r0)]> t !! key = Some r'
    /\ Pan.pan_number r' = Pan.pan_number r
    /\ Pan.customer_name r' = Pan.customer_name r
    /\ Pan.created_at r' = Pan.created_at r
    /\ transition (Pan.status r) (Pan.status r')
    /\ (Pan.status r' = Pan.status r -> r' = r)).
  { intros now v k r0 Hk Hv Htr. destruct (decide (k = key)) as [-> | Hne].
    - rewrite lookup_insert_eq. assert (r0 = r) by congruence. subst r0.
      eexists. split; [reflexivity |]. simpl. repeat split; auto.
      intros E. rewrite E, String.eqb_refl in Hv. discriminate.
    - rewrite lookup_insert_ne by exact Hne. exact Hsame. }
  destruct rq as [u now data | now k | now data k | now k | k]; simpl.
  - destruct (pan_start_cases u now data t) as [(-> & _ & Hnone) | (e & -> & _)];
      simpl; [| exact Hsame].
    rewrite lookup_insert_ne; [exact Hsame |]. intros E. congruence.
  - destruct (t !! k) as [r0 |] eqn:Hk.
    + rewrite (pan_send_otp_found now k t r0 Hk). simpl.
      destruct (String.eqb (Pan.status r0) OTP_SENT) eqn:Hv; [exact Hsame |].
      apply Hset; auto. intros _. constructor.
    + destruct (pan_missing k t Hk) as (-> & _). exact Hsame.
  - destruct (t !! k) as [r0 |] eqn:Hk.
    + rewrite (pan_verify_otp_found now data k t r0 Hk). simpl.
      destruct (String.eqb (Pan.status r0) OTP_VERIFIED) eqn:Hv; [exact Hsame |].
      apply Hset; auto. intros _. constructor.
    + destruct (pan_missing k t Hk) as (_ & -> & _). exact Hsame.
  - destruct (t !! k) as [r0 |] eqn:Hk.
    + rewrite (pan_finalize_found now k t r0 Hk).
      destruct (String.eqb_spec (Pan.status r0) OTP_VERIFIED) as [Hv | Hv];
        [| exact Hsame]. simpl.
      apply Hset; auto.
      * rewrite Hv. reflexivity.
      * intros ->. assert (r0 = r) by congruence. subst r0. rewrite Hv. constructor.
    + destruct (pan_missing k t Hk) as (_ & _ & -> & _). exact Hsame.
  - destruct (t !! k) as [r0 |] eqn:Hk.
    + rewrite (pan_status_found k t r0 Hk). exact Hsame.
    + destruct (pan_missing k t Hk) as (_ & _ & _ & ->). exact Hsame.
Qed.

(** ** Aadhaar service: what each handler computes *)

Lemma aadhaar_commit_status (now : Z) (key v : string) (r : Aadhaar.AadhaarRequestModel)
      (t : Aadhaar.table) :
  Aadhaar.commit now key r (Aadhaar.set_status v r) t =
    (inr tt, if String.eqb (Aadhaar.status r) v then t
             else <[key := Aadhaar.touch now (Aadhaar.set_status v r)]> t).
Proof.
  unfold Aadhaar.commit.
  destruct (String.eqb_spec (Aadhaar.status r) v) as [E | E];
    destruct (decide (Aadhaar.set_status v r = r)) as [E' | E']; try reflexivity.
  - exfalso. apply E'. destruct r; simpl in *; now subst.
  - exfalso. apply E. now rewrite <- E'.
Qed.

Lemma aadhaar_send_otp_found (now : Z) (requestId : string) (t : Aadhaar.table) r :
  t !! requestId = Some r ->
  Aadhaar.AadhaarSendOtp_post now requestId t =
    (inr (Response
            [ ("requestId", VStr requestId); ("status", VStr OTP_SENT);
              ("message", VStr "OTP successfully triggered via UIDAI gateway") ]
            200),
     if String.eqb (Aadhaar.status r) OTP_SENT then t
     else <[requestId := Aadhaar.touch now (Aadhaar.set_status OTP_SENT r)]> t).
Proof.
  intros H. unfold Aadhaar.AadhaarSendOtp_post, bind.
  rewrite (get_or_404_found _ _ _ H), aadhaar_commit_status. reflexivity.
Qed.

Lemma aadhaar_verify_otp_found (now : Z) (data : OtpVerify) (requestId : string)
      (t : Aadhaar.table) r :
  t !! requestId = Some r ->
  Aadhaar.AadhaarVerifyOtp_post now data requestId t =
    (inr (Response
            [ ("requestId", VStr requestId); ("status", VStr OTP_VERIFIED);
              ("message", VStr "UIDAI OTP validation successful") ]
            200),
     if String.eqb (Aadhaar.status r) OTP_VERIFIED then t
     else <[requestId := Aadhaar.touch now (Aadhaar.set_status OTP_VERIFIED r)]> t).
Proof.
  intros H. unfold Aadhaar.AadhaarVerifyOtp_post, bind.
  rewrite (get_or_404_found _ _ _ H), aadhaar_commit_status. reflexivity.
Qed.

Lemma aadhaar_finalize_found (now : Z) (requestId : string) (t : Aadhaar.table) r :
  t !! requestId = Some r ->
  Aadhaar.AadhaarFinalize_post now requestId t =
    if String.eqb (Aadhaar.status r) OTP_VERIFIED
    then (inr (Response
                 [ ("requestId", VStr requestId); ("status", VStr LINKED);
                   ("maskedAadhaar", VStr (Aadhaar.masked_aadhaar r));
                   ("message", VStr "Aadhaar successfully linked to the primary account.") ]
                 200),
          <[requestId := Aadhaar.touch now (Aadhaar.set_status LINKED r)]> t)
    else (inl (Abort 400 (Some "Aadhaar OTP must be verified before final link.")), t).
Proof.
  intros H. unfold Aadhaar.AadhaarFinalize_post. unfold bind at 1.
  rewrite (get_or_404_found _ _ _ H).
  destruct (String.eqb_spec (Aadhaar.status r) OTP_VERIFIED) as [E | E]; run.
  - rewrite aadhaar_commit_status, E. reflexivity.
  - reflexivity.
Qed.

Lemma aadhaar_status_found (requestId : string) (t : Aadhaar.table) r :
  t !! requestId = Some r ->
  Aadhaar.AadhaarStatus_get requestId t =
    (inr (Response
            [ ("requestId", VStr requestId); ("status", VStr (Aadhaar.status r));
              ("maskedAadhaar", VStr (Aadhaar.masked_aadhaar r));
              ("updatedAt", VTime (Aadhaar.updated_at r)) ]
            200), t).
Proof.
  intros H. unfold Aadhaar.AadhaarStatus_get, bind.
  rewrite (get_or_404_found _ _ _ H). reflexivity.
Qed.

Lemma aadhaar_missing (requestId : string) (t : Aadhaar.table) :
  t !! requestId = None ->
  (forall now, Aadhaar.AadhaarSendOtp_post now requestId t = (inl (Abort 404 None), t))
  /\ (forall now data,
        Aadhaar.AadhaarVerifyOtp_post now data requestId t = (inl (Abort 404 None), t))
  /\ (forall now, Aadhaar.AadhaarFinalize_post now requestId t = (inl (Abort 404 None), t))
  /\ Aadhaar.AadhaarStatus_get requestId t = (inl (Abort 404 None), t).
Proof.
  intros H. repeat split; intros;
    unfold Aadhaar.AadhaarSendOtp_post, Aadhaar.AadhaarVerifyOtp_post, Aadhaar.AadhaarFinalize_post,
      Aadhaar.AadhaarStatus_get, bind;
    now rewrite (get_or_404_missing _ _ H).
Qed.

Lemma aadhaar_start_cases (u now : Z) (data : Aadhaar.AadhaarStart) (t : Aadhaar.table) :
  let key := Py.fresh_id "ADR_" u in
  let row := {| Aadhaar.aadhaar_hash := Aadhaar.a_hash (Aadhaar.aadhaarNumber data);
                Aadhaar.masked_aadhaar := Aadhaar.masked (Aadhaar.aadhaarNumber data);
                Aadhaar.status := PENDING_OTP;
                Aadhaar.consent_obtained := Aadhaar.consentObtained data;
                Aadhaar.created_at := now; Aadhaar.updated_at := now |} in
  (Aadhaar.AadhaarStart_post u now data t =
     (inr (Response
             [ ("requestId", VStr key); ("status", VStr PENDING_OTP);
               ("message", VStr "Aadhaar linking initiated. Consent verified.") ]
             201),
      <[key := row]> t)
   /\ Aadhaar.fits key row = true /\ t !! key = None)
  \/ (exists e, Aadhaar.AadhaarStart_post u now data t = (inl (DBError e), t)
                /\ (Aadhaar.fits key row = false \/ is_Some (t !! key))).
Proof.
  intros key row. unfold Aadhaar.AadhaarStart_post, bind. fold key. fold row.
  destruct (add_commit_cases key row (Aadhaar.fits key row) t)
    as [(-> & ? & ?) | (e & -> & ?)]; [left | right]; eauto.
Qed.

(** One request and one stored row: the row stays, its hash, masked number,
    consent and creation time stay, and its status makes one [transition]. *)
Lemma aadhaar_handle_row (rq : Aadhaar.request) (t : Aadhaar.table) (key : string) r :
  t !! key = Some r ->
  exists r', snd (Aadhaar.handle rq t) !! key = Some r'
    /\ Aadhaar.aadhaar_hash r' = Aadhaar.aadhaar_hash r
    /\ Aadhaar.masked_aadhaar r' = Aadhaar.masked_aadhaar r
    /\ Aadhaar.consent_obtained r' = Aadhaar.consent_obtained r
    /\ Aadhaar.created_at r' = Aadhaar.created_at r
    /\ transition (Aadhaar.status r) (Aadhaar.status r')
    /\ (Aadhaar.status r' = Aadhaar.status r -> r' = r).
Proof.
  intros H.
  assert (Hsame : exists r', t !! key = Some r'
    /\ Aadhaar.aadhaar_hash r' = Aadhaar.aadhaar_hash r
    /\ Aadhaar.masked_aadhaar r' = Aadhaar.masked_aadhaar r
    /\ Aadhaar.consent_obtained r' = Aadhaar.consent_obtained r
    /\ Aadhaar.created_at r' = Aadhaar.created_at r
    /\ transition (Aadhaar.status r) (Aadhaar.status r')
    /\ (Aadhaar.status r' = Aadhaar.status r -> r' = r)).
  { exists r. repeat split; auto. constructor. }
  assert (Hset : forall now v k r0,
    t !! k = Some r0 -> String.eqb (Aadhaar.status r0) v = false ->
    (k = key -> transition (Aadhaar.status r) v) ->
    exists r', <[k := Aadhaar.touch now (Aadhaar.set_status v r0)]> t !! key = Some r'
    /\ Aadhaar.aadhaar_hash r' = Aadhaar.aadhaar_hash r
    /\ Aadhaar.masked_aadhaar r' = Aadhaar.masked_aadhaar r
    /\ Aadhaar.consent_obtained r' = Aadhaar.consent_obtained r
    /\ Aadhaar.created_at r' = Aadhaar.created_at r
    /\ transition (Aadhaar.status r) (Aadhaar.status r')
    /\ (Aadhaar.status r' = Aadhaar.status r -> r' = r)).
  { intros now v k r0 Hk Hv Htr. destruct (decide (k = key)) as [-> | Hne].
    - rewrite lookup_insert_eq. assert (r0 = r) by congruence. subst r0.
      eexists. split; [reflexivity |]. simpl. repeat split; auto.
      intros E. rewrite E, String.eqb_refl in Hv. discriminate.
    - rewrite lookup_insert_ne by exact Hne. exact Hsame. }
  destruct rq as [u now data | now k | now data k | now k | k]; simpl.
  - destruct (aadhaar_start_cases u now data t) as [(-> & _ & Hnone) | (e & -> & _)];
      simpl; [| exact Hsame].
    rewrite lookup_insert_ne; [exact Hsame |]. intros E. congruence.
  - destruct (t !! k) as [r0 |] eqn:Hk.
    + rewrite (aadhaar_send_otp_found now k t r0 Hk). simpl.
      destruct (String.eqb (Aadhaar.status r0) OTP_SENT) eqn:Hv; [exact Hsame |].
      apply Hset; auto. intros _. constructor.
    + destruct (aadhaar_missing k t Hk) as (-> & _). exact Hsame.
  - destruct (t !! k) as [r0 |] eqn:Hk.
    + rewrite (aadhaar_verify_otp_found now data k t r0 Hk). simpl.
      destruct (String.eqb (Aadhaar.status r0) OTP_VERIFIED) eqn:Hv; [exact Hsame |].
      apply Hset; auto. intros _. constructor.
    + destruct (aadhaar_missing k t Hk) as (_ & -> & _). exact Hsame.
  - destruct (t !! k) as [r0 |] eqn:Hk.
    + rewrite (aadhaar_finalize_found now k t r0 Hk).
      destruct (String.eqb_spec (Aadhaar.status r0) OTP_VERIFIED) as [Hv | Hv];
        [| exact Hsame]. simpl.
      apply Hset; auto.
      * rewrite Hv. reflexivity.
      * intros ->. assert (r0 = r) by congruence. subst r0. rewrite Hv. constructor.
    + destruct (aadhaar_missing k t Hk) as (_ & _ & -> & _). exact Hsame.
  - destruct (t !! k) as [r0 |] eqn:Hk.
    + rewrite (aadhaar_status_found k t r0 Hk). exact Hsame.
    + destruct (aadhaar_missing k t Hk) as (_ & _ & _ & ->). exact Hsame.
Qed.

Lemma transition_to_linked (s : string) :
  transition s LINKED -> s = LINKED \/ s = OTP_VERIFIED.
Proof. intros H. inversion H; subst; auto; discriminate. Qed.

(** A row that appears was inserted by [PanStart.post], in status
    PENDING_OTP. *)
Lemma pan_handle_new (rq : Pan.request) (t : Pan.table) (key : string) r' :
  t !! key = None ->
  snd (Pan.handle rq t) !! key = Some r' ->
  Pan.status r' = PENDING_OTP.
Proof.
  intros Hnone Hsome.
  assert (Hset : forall now v k r0, t !! k = Some r0 ->
            <[k := Pan.touch now (Pan.set_status v r0)]> t !! key = Some r' -> False).
  { intros now v k r0 Hk Hins. rewrite lookup_insert_ne in Hins; congruence. }
  destruct rq as [u now data | now k | now data k | now k | k]; simpl in Hsome.
  - destruct (pan_start_cases u now data t) as [(E & _ & _) | (e & E & _)];
      rewrite E in Hsome; simpl in Hsome; [| congruence].
    destruct (decide (Py.fresh_id "PAN_" u = key)) as [<- | Hne].
    + rewrite lookup_insert_eq in Hsome. now inversion Hsome.
    + rewrite lookup_insert_ne in Hsome; congruence.
  - destruct (t !! k) as [r0 |] eqn:Hk.
    + rewrite (pan_send_otp_found now k t r0 Hk) in Hsome. simpl in Hsome.
      destruct (String.eqb _ _); [congruence | exfalso; eauto].
    + destruct (pan_missing k t Hk) as (E & _). rewrite E in Hsome. simpl in *. congruence.
  - destruct (t !! k) as [r0 |] eqn:Hk.
    + rewrite (pan_verify_otp_found now data k t r0 Hk) in Hsome. simpl in Hsome.
      destruct (String.eqb _ _); [congruence | exfalso; eauto].
    + destruct (pan_missing k t Hk) as (_ & E & _). rewrite E in Hsome. simpl in *. congruence.
  - destruct (t !! k) as [r0 |] eqn:Hk.
    + rewrite (pan_finalize_found now k t r0 Hk) in Hsome.
      destruct (String.eqb _ _); simpl in Hsome; [exfalso; eauto | congruence].
    + destruct (pan_missing k t Hk) as (_ & _ & E & _). rewrite E in Hsome. simpl in *. congruence.
  - destruct (t !! k) as [r0 |] eqn:Hk.
    + rewrite (pan_status_found k t r0 Hk) in Hsome. simpl in *. congruence.
    + destruct (pan_missing k t Hk) as (_ & _ & _ & E). rewrite E in Hsome. simpl in *. congruence.
Qed.

Lemma pan_serve_app (a b : list Pan.request) (t : Pan.table) :
  Pan.serve (a ++ b) t = Pan.serve b (Pan.serve a t).
Proof. revert t. induction a as [| rq a IH]; intros t; simpl; [reflexivity | apply IH]. Qed.

(** Over any sequence of requests a stored row keeps its PAN, name and
    creation time. *)
Lemma pan_serve_row (rqs : list Pan.request) (t : Pan.table) (key : string) r :
  t !! key = Some r ->
  exists r', Pan.serve rqs t !! key = Some r'
    /\ Pan.pan_number r' = Pan.pan_number r
    /\ Pan.customer_name r' = Pan.customer_name r
    /\ Pan.created_at r' = Pan.created_at r.
Proof.
  revert t r. induction rqs as [| rq rqs IH]; intros t r H; simpl.
  - exists r. auto.
  - destruct (pan_handle_row rq t key r H) as (r1 & H1 & Ea & Eb & Ec & _).
    destruct (IH _ _ H1) as (r2 & H2 & Fa & Fb & Fc).
    exists r2. repeat split; congruence.
Qed.

(** From the empty table a LINKED row was OTP_VERIFIED at some earlier
    point of the sequence. *)
Lemma pan_linked_was_verified (rqs : list Pan.request) (key : string) r :
  Pan.serve rqs ∅ !! key = Some r ->
  Pan.status r = LINKED ->
  exists before after r0,
    rqs = before ++ after
    /\ Pan.serve before ∅ !! key = Some r0
    /\ Pan.status r0 = OTP_VERIFIED.
Proof.
  revert r. induction rqs as [| rq rqs IH] using rev_ind; intros r H Hl.
  - simpl in H. rewrite lookup_empty in H. discriminate.
  - rewrite pan_serve_app in H. simpl in H.
    destruct (Pan.serve rqs ∅ !! key) as [r0 |] eqn:H0.
    + destruct (pan_handle_row rq _ key r0 H0) as (r1 & H1 & _ & _ & _ & Htr & _).
      assert (r1 = r) by congruence. subst r1. rewrite Hl in Htr.
      destruct (transition_to_linked _ Htr) as [Es | Es].
      * destruct (IH r0 eq_refl Es) as (b & a & rv & E & Hb & Hv).
        exists b, (a ++ [rq]), rv. rewrite app_assoc, <- E. auto.
      * exists rqs, [rq], r0. auto.
    + pose proof (pan_handle_new rq _ key r H0 H) as Hp.
      rewrite Hl in Hp. discriminate.
Qed.

(** A row that appears was inserted by [AadhaarStart.post], in status
    PENDING_OTP. *)
Lemma aadhaar_handle_new (rq : Aadhaar.request) (t : Aadhaar.table) (key : string) r' :
  t !! key = None ->
  snd (Aadhaar.handle rq t) !! key = Some r' ->
  Aadhaar.status r' = PENDING_OTP.
Proof.
  intros Hnone Hsome.
  assert (Hset : forall now v k r0, t !! k = Some r0 ->
            <[k := Aadhaar.touch now (Aadhaar.set_status v r0)]> t !! key = Some r' -> False).
  { intros now v k r0 Hk Hins. rewrite lookup_insert_ne in Hins; congruence. }
  destruct rq as [u now data | now k | now data k | now k | k]; simpl in Hsome.
  - destruct (aadhaar_start_cases u now data t) as [(E & _ & _) | (e & E & _)];
      rewrite E in Hsome; simpl in Hsome; [| congruence].
    destruct (decide (Py.fresh_id "ADR_" u = key)) as [<- | Hne].
    + rewrite lookup_insert_eq in Hsome. now inversion Hsome.
    + rewrite lookup_insert_ne in Hsome; congruence.
  - destruct (t !! k) as [r0 |] eqn:Hk.
    + rewrite (aadhaar_send_otp_found now k t r0 Hk) in Hsome. simpl in Hsome.
      destruct (String.eqb _ _); [congruence | exfalso; eauto].
    + destruct (aadhaar_missing k t Hk) as (E & _). rewrite E in Hsome. simpl in *. congruence.
  - destruct (t !! k) as [r0 |] eqn:Hk.
    + rewrite (aadhaar_verify_otp_found now data k t r0 Hk) in Hsome. simpl in Hsome.
      destruct (String.eqb _ _); [congruence | exfalso; eauto].
    + destruct (aadhaar_missing k t Hk) as (_ & E & _). rewrite E in Hsome. simpl in *. congruence.
  - destruct (t !! k) as [r0 |] eqn:Hk.
    + rewrite (aadhaar_finalize_found now k t r0 Hk) in Hsome.
      destruct (String.eqb _ _); simpl in Hsome; [exfalso; eauto | congruence].
    + destruct (aadhaar_missing k t Hk) as (_ & _ & E & _). rewrite E in Hsome. simpl in *. congruence.
  - destruct (t !! k) as [r0 |] eqn:Hk.
    + rewrite (aadhaar_status_found k t r0 Hk) in Hsome. simpl in *. congruence.
    + destruct (aadhaar_missing k t Hk) as (_ & _ & _ & E). rewrite E in Hsome. simpl in *. congruence.
Qed.

Lemma aadhaar_serve_app (a b : list Aadhaar.request) (t : Aadhaar.table) :
  Aadhaar.serve (a ++ b) t = Aadhaar.serve b (Aadhaar.serve a t).
Proof. revert t. induction a as [| rq a IH]; intros t; simpl; [reflexivity | apply IH]. Qed.

(** Over any sequence of requests a stored row keeps its hash, masked number,
    consent and creation time. *)
Lemma aadhaar_serve_row (rqs : list Aadhaar.request) (t : Aadhaar.table) (key : string) r :
  t !! key = Some r ->
  exists r', Aadhaar.serve rqs t !! key = Some r'
    /\ Aadhaar.aadhaar_hash r' = Aadhaar.aadhaar_hash r
    /\ Aadhaar.masked_aadhaar r' = Aadhaar.masked_aadhaar r
    /\ Aadhaar.consent_obtained r' = Aadhaar.consent_obtained r
    /\ Aadhaar.created_at r' = Aadhaar.created_at r.
Proof.
  revert t r. induction rqs as [| rq rqs IH]; intros t r H; simpl.
  - exists r. auto.
  - destruct (aadhaar_handle_row rq t key r H) as (r1 & H1 & Ea & Eb & Ec & Ed & _).
    destruct (IH _ _ H1) as (r2 & H2 & Fa & Fb & Fc & Fd).
    exists r2. repeat split; congruence.
Qed.

(** From the empty table a LINKED row was OTP_VERIFIED at some earlier
    point of the sequence. *)
Lemma aadhaar_linked_was_verified (rqs : list Aadhaar.request) (key : string) r :
  Aadhaar.serve rqs ∅ !! key = Some r ->
  Aadhaar.status r = LINKED ->
  exists before after r0,
    rqs = before ++ after
    /\ Aadhaar.serve before ∅ !! key = Some r0
    /\ Aadhaar.status r0 = OTP_VERIFIED.
Proof.
  revert r. induction rqs as [| rq rqs IH] using rev_ind; intros r H Hl.
  - simpl in H. rewrite lookup_empty in H. discriminate.
  - rewrite aadhaar_serve_app in H. simpl in H.
    destruct (Aadhaar.serve rqs ∅ !! key) as [r0 |] eqn:H0.
    + destruct (aadhaar_handle_row rq _ key r0 H0) as (r1 & H1 & _ & _ & _ & _ & Htr & _).
      assert (r1 = r) by congruence. subst r1. rewrite Hl in Htr.
      destruct (transition_to_linked _ Htr) as [Es | Es].
      * destruct (IH r0 eq_refl Es) as (b & a & rv & E & Hb & Hv).
        exists b, (a ++ [rq]), rv. rewrite app_assoc, <- E. auto.
      * exists rqs, [rq], r0. auto.
    + pose proof (aadhaar_handle_new rq _ key r H0 H) as Hp.
      rewrite Hl in Hp. discriminate.
Qed.

(** ** The digest is 64 hexadecimal characters *)

Lemma hex_length (n : nat) (x : Z) : String.length (Py.hex n x) = n.
Proof. induction n as [| n IH]; simpl; [reflexivity | now rewrite IH]. Qed.

Lemma round_length (h : list Z) (kw : Z * Z) :
  length (SHA256.round h kw) = length h.
Proof.
  unfold SHA256.round.
  do 8 (destruct h as [| ? h]; [reflexivity |]).
  destruct h; reflexivity.
Qed.

Lemma rounds_length (kws : list (Z * Z)) (h : list Z) :
  length (fold_left SHA256.round kws h) = length h.
Proof.
  revert h. induction kws as [| kw kws IH]; intros h; simpl; [reflexivity |].
  now rewrite IH, round_length.
Qed.

Lemma compress_length (h block : list Z) :
  length (SHA256.compress h block) = length h.
Proof.
  unfold SHA256.compress, SHA256.zip_add.
  rewrite length_map, length_combine, rounds_length. lia.
Qed.

Lemma blocks_length (n : nat) (h bs : list Z) :
  length (SHA256.blocks n h bs) = length h.
Proof.
  revert h bs. induction n as [| n IH]; intros h bs; simpl; [reflexivity |].
  now rewrite IH, compress_length.
Qed.

Lemma hexdigest_length (msg : list Z) :
  String.length (SHA256.hexdigest msg) = 64%nat.
Proof.
  unfold SHA256.hexdigest.
  assert (Hlen : length (SHA256.digest msg) = 8%nat).
  { unfold SHA256.digest. now rewrite blocks_length. }
  destruct (SHA256.digest msg) as [| a [| b [| c [| d [| e [| f [| g [| h [| ? ?]]]]]]]]];
    try discriminate.
  cbn [map String.concat].
  rewrite !append_length, !hex_length. reflexivity.
Qed.

(** ** KYC service: what each handler computes *)

Lemma kyc_session_found (key : string) (t : Kyc.tables) s :
  Kyc.kyc_sessions t !! key = Some s ->
  Kyc.session_get_or_404 key t = (inr s, t).
Proof. intros H. unfold Kyc.session_get_or_404, get_or_404. now rewrite H. Qed.

Lemma kyc_session_missing (key : string) (t : Kyc.tables) :
  Kyc.kyc_sessions t !! key = None ->
  Kyc.session_get_or_404 key t = (inl (Abort 404 None), t).
Proof. intros H. unfold Kyc.session_get_or_404, get_or_404. now rewrite H. Qed.

Lemma kyc_missing (sessionId : string) (t : Kyc.tables) :
  Kyc.kyc_sessions t !! sessionId = None ->
  (forall u now data,
      Kyc.Docs_post u now data sessionId t = (inl (Abort 404 None), t))
  /\ Kyc.Summary_get sessionId t = (inl (Abort 404 None), t).
Proof.
  intros H. split; intros; unfold Kyc.Docs_post, Kyc.Summary_get, bind;
    now rewrite (kyc_session_missing _ _ H).
Qed.

Lemma kyc_summary_found (sessionId : string) (t : Kyc.tables) s :
  Kyc.kyc_sessions t !! sessionId = Some s ->
  Kyc.Summary_get sessionId t =
    (inr (Response
            [ ("sessionId", VStr sessionId);
              ("status", VStr (Kyc.status s));
              ("documentCount",
               VInt (Z.of_nat (length (Kyc.documents_of sessionId t))));
              ("documents",
               VList (map (fun d => [ ("id", VStr (Kyc.id d));
                                      ("type", VStr (Kyc.document_type d));
                                      ("status", VStr (Kyc.state d)) ])
                          (Kyc.documents_of sessionId t))) ]
            200), t).
Proof.
  intros H. unfold Kyc.Summary_get, bind.
  rewrite (kyc_session_found _ _ _ H). unfold Kyc.documents, ret.
  now rewrite length_map.
Qed.

(** One request leaves the tables as they are, or adds one CREATED session
    under a new key, or appends one UPLOADED document. *)
Lemma kyc_handle_cases (rq : Kyc.request) (t : Kyc.tables) :
  snd (Kyc.handle rq t) = t
  \/ (exists key s,
        Kyc.kyc_sessions t !! key = None /\ Kyc.status s = Kyc.CREATED
        /\ snd (Kyc.handle rq t) =
             {| Kyc.kyc_sessions := <[key := s]> (Kyc.kyc_sessions t);
                Kyc.kyc_documents := Kyc.kyc_documents t |})
  \/ (exists d,
        Kyc.state d = Kyc.UPLOADED
        /\ snd (Kyc.handle rq t) =
             {| Kyc.kyc_sessions := Kyc.kyc_sessions t;
                Kyc.kyc_documents := Kyc.kyc_documents t ++ [d] |}).
Proof.
  destruct rq as [u now data | u now data sid | sid]; simpl.
  - unfold Kyc.Sessions_post, bind, Kyc.add_session.
    match goal with
    | |- context [add_commit ?k ?s ?ok ?m] =>
        destruct (add_commit_cases k s ok m) as [(E & _ & Hn) | (e & E & _)];
          rewrite E; simpl
    end.
    + right. left. exists (Py.fresh_id "sess_" u). eexists. repeat split; [exact Hn | ].
      reflexivity.
    + left. now destruct t.
  - destruct (Kyc.kyc_sessions t !! sid) as [s |] eqn:Hs.
    + unfold Kyc.Docs_post, bind. rewrite (kyc_session_found _ _ _ Hs).
      unfold Kyc.add_document.
      destruct (negb _); [now left |].
      destruct (existsb _ _); [now left |].
      right. right. simpl. eexists. split; [| reflexivity]. reflexivity.
    + destruct (kyc_missing sid t Hs) as (-> & _). now left.
  - destruct (Kyc.kyc_sessions t !! sid) as [s |] eqn:Hs.
    + rewrite (kyc_summary_found sid t s Hs). now left.
    + destruct (kyc_missing sid t Hs) as (_ & ->). now left.
Qed.

Lemma kyc_handle_invariant (rq : Kyc.request) (t : Kyc.tables) :
  all_created_uploaded t -> all_created_uploaded (snd (Kyc.handle rq t)).
Proof.
  intros [Hs Hd].
  destruct (kyc_handle_cases rq t) as [-> | [(key & s & Hn & Hc & ->) | (d & Hu & ->)]].
  - now split.
  - split; [| exact Hd]. simpl. intros k s' Hk.
    destruct (decide (key = k)) as [-> | Hne].
    + rewrite lookup_insert_eq in Hk. congruence.
    + rewrite lookup_insert_ne in Hk by exact Hne. eauto.
  - split; [exact Hs |]. simpl. apply Forall_app. split; [exact Hd |].
    constructor; [exact Hu | constructor].
Qed.

Lemma kyc_serve_invariant (rqs : list Kyc.request) (t : Kyc.tables) :
  all_created_uploaded t -> all_created_uploaded (Kyc.serve rqs t).
Proof.
  revert t. induction rqs as [| rq rqs IH]; intros t H; simpl; [exact H |].
  apply IH, kyc_handle_invariant, H.
Qed.

(** A stored session row is never written again. *)
Lemma kyc_serve_session (rqs : list Kyc.request) (t : Kyc.tables) (key : string) s :
  Kyc.kyc_sessions t !! key = Some s ->
  Kyc.kyc_sessions (Kyc.serve rqs t) !! key = Some s.
Proof.
  revert t. induction rqs as [| rq rqs IH]; intros t H; simpl; [exact H |].
  apply IH.
  destruct (kyc_handle_cases rq t) as [-> | [(k & s' & Hn & _ & ->) | (d & _ & ->)]];
    simpl; [exact H | | exact H].
  rewrite lookup_insert_ne; [exact H | congruence].
Qed.

(** Stored documents are never written again: the table only grows at its
    end. *)
Lemma kyc_serve_documents (rqs : list Kyc.request) (t : Kyc.tables) :
  exists added, Kyc.kyc_documents (Kyc.serve rqs t) = Kyc.kyc_documents t ++ added.
Proof.
  revert t. induction rqs as [| rq rqs IH]; intros t; simpl.
  - exists []. now rewrite app_nil_r.
  - destruct (IH (snd (Kyc.handle rq t))) as (added & ->).
    destruct (kyc_handle_cases rq t) as [-> | [(k & s' & _ & _ & ->) | (d & _ & ->)]];
      simpl; eauto.
    exists ([d] ++ added). now rewrite app_assoc.
Qed.

(* ===================================================================== *)
(** * The specification's claims *)
(* ===================================================================== *)

(** C1.  For a stored link request (PAN and Aadhaar), finalize answers if and
    only if the status is exactly OTP_VERIFIED.  From any other status, in
    particular PENDING_OTP, OTP_SENT and LINKED, it fails with 400 and the
    table is the one it started from; on success the row's status is
    LINKED. *)
Theorem finalize_requires_otp_verified
    (now : Z) (pan_id adr_id : string)
    (tp : Pan.table) (rp : Pan.PanRequestModel)
    (ta : Aadhaar.table) (ra : Aadhaar.AadhaarRequestModel) :
  tp !! pan_id = Some rp ->
  ta !! adr_id = Some ra ->
  let outp := Pan.PanFinalize_post now pan_id tp in
  let outa := Aadhaar.AadhaarFinalize_post now adr_id ta in
  ((answered outp <-> Pan.status rp = OTP_VERIFIED)
   /\ (Pan.status rp = OTP_VERIFIED ->
       http_status outp = 200
       /\ snd outp = <[pan_id := Pan.touch now (Pan.set_status LINKED rp)]> tp
       /\ exists r', snd outp !! pan_id = Some r' /\ Pan.status r' = LINKED)
   /\ (Pan.status rp <> OTP_VERIFIED ->
       outp = (inl (Abort 400 (Some "OTP must be verified before finalizing link.")), tp))
   /\ (Pan.status rp = PENDING_OTP \/ Pan.status rp = OTP_SENT \/ Pan.status rp = LINKED ->
       http_status outp = 400 /\ snd outp = tp))
  /\
  ((answered outa <-> Aadhaar.status ra = OTP_VERIFIED)
   /\ (Aadhaar.status ra = OTP_VERIFIED ->
       http_status outa = 200
       /\ snd outa
          = <[adr_id := Aadhaar.touch now (Aadhaar.set_status LINKED ra)]> ta
       /\ exists r', snd outa !! adr_id = Some r' /\ Aadhaar.status r' = LINKED)
   /\ (Aadhaar.status ra <> OTP_VERIFIED ->
       outa = (inl (Abort 400 (Some "Aadhaar OTP must be verified before final link.")), ta))
   /\ (Aadhaar.status ra = PENDING_OTP \/ Aadhaar.status ra = OTP_SENT
       \/ Aadhaar.status ra = LINKED ->
       http_status outa = 400 /\ snd outa = ta)).
Proof.
  intros Hp Ha outp outa. subst outp outa.
  rewrite (pan_finalize_found now pan_id tp rp Hp).
  rewrite (aadhaar_finalize_found now adr_id ta ra Ha).
  split.
  - destruct (String.eqb_spec (Pan.status rp) OTP_VERIFIED) as [E | E].
    + split; [| split; [| split]].
      * split; [intros _; exact E | intros _; eexists; reflexivity].
      * intros _. split; [reflexivity | split; [reflexivity |]].
        eexists. split; [apply lookup_insert_eq | reflexivity].
      * intros N. contradiction.
      * intros [H | [H | H]]; rewrite H in E; discriminate.
    + split; [| split; [| split]].
      * split; [intros [resp H]; discriminate | intros H; contradiction].
      * intros H. contradiction.
      * intros _. reflexivity.
      * intros _. split; reflexivity.
  - destruct (String.eqb_spec (Aadhaar.status ra) OTP_VERIFIED) as [E | E].
    + split; [| split; [| split]].
      * split; [intros _; exact E | intros _; eexists; reflexivity].
      * intros _. split; [reflexivity | split; [reflexivity |]].
        eexists. split; [apply lookup_insert_eq | reflexivity].
      * intros N. contradiction.
      * intros [H | [H | H]]; rewrite H in E; discriminate.
    + split; [| split; [| split]].
      * split; [intros [resp H]; discriminate | intros H; contradiction].
      * intros H. contradiction.
      * intros _. reflexivity.
      * intros _. split; reflexivity.
Qed.

(** C4.  For a stored link request (PAN and Aadhaar), verify-otp answers 200
    and leaves the row in status OTP_VERIFIED, whatever the status was and
    whatever OTP was submitted: any two payloads give the same outcome, and so
    does every 6-character OTP sent through the decorated view. *)
Theorem verify_otp_unconditional
    (now : Z) (data : OtpVerify) (pan_id adr_id : string)
    (tp : Pan.table) (rp : Pan.PanRequestModel)
    (ta : Aadhaar.table) (ra : Aadhaar.AadhaarRequestModel) :
  tp !! pan_id = Some rp ->
  ta !! adr_id = Some ra ->
  let outp := Pan.PanVerifyOtp_post now data pan_id tp in
  let outa := Aadhaar.AadhaarVerifyOtp_post now data adr_id ta in
  (http_status outp = 200
   /\ (exists resp, fst outp = inr resp
                    /\ field "status" (body resp) = Some (VStr OTP_VERIFIED))
   /\ (exists r', snd outp !! pan_id = Some r' /\ Pan.status r' = OTP_VERIFIED)
   /\ (forall data', Pan.PanVerifyOtp_post now data' pan_id tp = outp)
   /\ (forall data', OtpVerifySchema data' = true ->
                     Pan.PanVerifyOtp_view true now pan_id data' tp = outp))
  /\
  (http_status outa = 200
   /\ (exists resp, fst outa = inr resp
                    /\ field "status" (body resp) = Some (VStr OTP_VERIFIED))
   /\ (exists r', snd outa !! adr_id = Some r' /\ Aadhaar.status r' = OTP_VERIFIED)
   /\ (forall data', Aadhaar.AadhaarVerifyOtp_post now data' adr_id ta = outa)
   /\ (forall data', OtpVerifySchema data' = true ->
                     Aadhaar.AadhaarVerifyOtp_view true now adr_id data' ta = outa)).
Proof.
  intros Hp Ha outp outa. subst outp outa. split.
  - rewrite (pan_verify_otp_found now data pan_id tp rp Hp).
    repeat split.
    + eexists. split; reflexivity.
    + simpl. destruct (String.eqb_spec (Pan.status rp) OTP_VERIFIED) as [E | E].
      * exists rp. auto.
      * eexists. split; [apply lookup_insert_eq | reflexivity].
    + intros data'. apply pan_verify_otp_found, Hp.
    + intros data' Hv. unfold Pan.PanVerifyOtp_view, jwt_required, arguments.
      rewrite Hv. apply pan_verify_otp_found, Hp.
  - rewrite (aadhaar_verify_otp_found now data adr_id ta ra Ha).
    repeat split.
    + eexists. split; reflexivity.
    + simpl. destruct (String.eqb_spec (Aadhaar.status ra) OTP_VERIFIED) as [E | E].
      * exists ra. auto.
      * eexists. split; [apply lookup_insert_eq | reflexivity].
    + intros data'. apply aadhaar_verify_otp_found, Ha.
    + intros data' Hv. unfold Aadhaar.AadhaarVerifyOtp_view, jwt_required, arguments.
      rewrite Hv. apply aadhaar_verify_otp_found, Ha.
Qed.

(** C7.  With an identifier that is not in the store, every handler that
    takes one (send-otp, verify-otp, finalize and status of both linking
    services, document creation and summary of the KYC service) fails with
    404 and leaves the tables as they were.  The same holds through the
    decorated views, called with a valid token and, where the route has a
    schema, a payload the schema accepts. *)
Theorem unknown_id_not_found
    (key : string) (tp : Pan.table) (ta : Aadhaar.table) (tk : Kyc.tables) :
  tp !! key = None ->
  ta !! key = None ->
  Kyc.kyc_sessions tk !! key = None ->
  ((forall now, Pan.PanSendOtp_post now key tp = (inl (Abort 404 None), tp))
   /\ (forall now data,
         Pan.PanVerifyOtp_post now data key tp = (inl (Abort 404 None), tp))
   /\ (forall now, Pan.PanFinalize_post now key tp = (inl (Abort 404 None), tp))
   /\ Pan.PanStatus_get key tp = (inl (Abort 404 None), tp)
   /\ (forall now,
         Aadhaar.AadhaarSendOtp_post now key ta = (inl (Abort 404 None), ta))
   /\ (forall now data,
         Aadhaar.AadhaarVerifyOtp_post now data key ta = (inl (Abort 404 None), ta))
   /\ (forall now,
         Aadhaar.AadhaarFinalize_post now key ta = (inl (Abort 404 None), ta))
   /\ Aadhaar.AadhaarStatus_get key ta = (inl (Abort 404 None), ta)
   /\ (forall u now data,
         Kyc.Docs_post u now data key tk = (inl (Abort 404 None), tk))
   /\ Kyc.Summary_get key tk = (inl (Abort 404 None), tk))
  /\
  ((forall now, Pan.PanSendOtp_view true now key tp = (inl (Abort 404 None), tp))
   /\ (forall now data,
         OtpVerifySchema data = true ->
         Pan.PanVerifyOtp_view true now key data tp = (inl (Abort 404 None), tp))
   /\ (forall now, Pan.PanFinalize_view true now key tp = (inl (Abort 404 None), tp))
   /\ Pan.PanStatus_view true key tp = (inl (Abort 404 None), tp)
   /\ (forall now,
         Aadhaar.AadhaarSendOtp_view true now key ta = (inl (Abort 404 None), ta))
   /\ (forall now data,
         OtpVerifySchema data = true ->
         Aadhaar.AadhaarVerifyOtp_view true now key data ta
         = (inl (Abort 404 None), ta))
   /\ (forall now,
         Aadhaar.AadhaarFinalize_view true now key ta = (inl (Abort 404 None), ta))
   /\ Aadhaar.AadhaarStatus_view true key ta = (inl (Abort 404 None), ta)
   /\ (forall u now data,
         Kyc.KycDocSchema data = true ->
         Kyc.Docs_view true u now key data tk = (inl (Abort 404 None), tk))
   /\ Kyc.Summary_view true key tk = (inl (Abort 404 None), tk)).
Proof.
  intros Hp Ha Hk.
  destruct (pan_missing key tp Hp) as (P1 & P2 & P3 & P4).
  destruct (aadhaar_missing key ta Ha) as (A1 & A2 & A3 & A4).
  destruct (kyc_missing key tk Hk) as (K1 & K2).
  split; [repeat split; assumption |].
  unfold Pan.PanSendOtp_view, Pan.PanVerifyOtp_view, Pan.PanFinalize_view,
    Pan.PanStatus_view, Aadhaar.AadhaarSendOtp_view, Aadhaar.AadhaarVerifyOtp_view,
    Aadhaar.AadhaarFinalize_view, Aadhaar.AadhaarStatus_view, Kyc.Docs_view,
    Kyc.Summary_view, jwt_required, arguments.
  repeat split; intros; try match goal with H : _ = true |- _ => rewrite H end;
    auto.
Qed.

(** C8.  Adding a document to a session that is not in the session table
    fails with 404, and the document table (like the session table) is
    unchanged; through the decorated view no payload and no token state adds
    a document either. *)
Theorem docs_post_unknown_session
    (u now : Z) (data : Kyc.KycDoc) (sessionId : string) (t : Kyc.tables) :
  Kyc.kyc_sessions t !! sessionId = None ->
  let out := Kyc.Docs_post u now data sessionId t in
  http_status out = 404
  /\ fst out = inl (Abort 404 None)
  /\ Kyc.kyc_documents (snd out) = Kyc.kyc_documents t
  /\ snd out = t
  /\ (forall token_ok, snd (Kyc.Docs_view token_ok u now sessionId data t) = t).
Proof.
  intros H out. subst out.
  destruct (kyc_missing sessionId t H) as (E & _).
  rewrite E. repeat split.
  intros token_ok. unfold Kyc.Docs_view, jwt_required, arguments.
  destruct token_ok; [| reflexivity].
  destruct (Kyc.KycDocSchema data); [| reflexivity].
  now rewrite E.
Qed.

(** The columns of a new Aadhaar row fit, for a number the schema accepts. *)
Lemma aadhaar_new_row_fits (u now : Z) (data : Aadhaar.AadhaarStart) :
  Aadhaar.AadhaarStartSchema data = true ->
  Aadhaar.fits (Py.fresh_id "ADR_" u)
    {| Aadhaar.aadhaar_hash := Aadhaar.a_hash (Aadhaar.aadhaarNumber data);
       Aadhaar.masked_aadhaar := Aadhaar.masked (Aadhaar.aadhaarNumber data);
       Aadhaar.status := PENDING_OTP;
       Aadhaar.consent_obtained := Aadhaar.consentObtained data;
       Aadhaar.created_at := now; Aadhaar.updated_at := now |} = true.
Proof.
  intros Hv. unfold Aadhaar.AadhaarStartSchema in Hv.
  apply andb_true_iff in Hv as [Hlen _]. apply length_equal_spec in Hlen.
  unfold Aadhaar.fits, varchar.
  cbn [Aadhaar.aadhaar_hash Aadhaar.masked_aadhaar Aadhaar.status].
  rewrite fresh_id_length. unfold Aadhaar.a_hash. rewrite hexdigest_length.
  unfold Aadhaar.masked. rewrite append_length.
  destruct (last_chars_is_suffix 4 (Aadhaar.aadhaarNumber data)) as [-> _]; [lia |].
  reflexivity.
Qed.

(** C2.  For a payload the Aadhaar schema accepts (12 characters, consent
    given), the create operation with an unused generated identifier answers
    201 and stores a row whose masked value is "XXXX-XXXX-" followed by the
    last 4 characters of the number and whose hash is the SHA-256 digest of
    the number; with an identifier already in the table it stores nothing.
    Mask and hash depend on the number only: a second run, with another
    identifier, time and table, stores the same mask and the same hash. *)
Theorem aadhaar_start_mask_and_hash
    (u now : Z) (data : Aadhaar.AadhaarStart) (t : Aadhaar.table) :
  Aadhaar.AadhaarStartSchema data = true ->
  let number := Aadhaar.aadhaarNumber data in
  let key := Py.fresh_id "ADR_" u in
  let out := Aadhaar.AadhaarStart_post u now data t in
  (t !! key = None ->
   http_status out = 201
   /\ exists row,
        snd out !! key = Some row
        /\ Aadhaar.masked_aadhaar row = "XXXX-XXXX-" +:+ Py.last_chars 4 number
        /\ Aadhaar.aadhaar_hash row = SHA256.hexdigest (Py.encode number)
        /\ forall u2 now2 (t2 : Aadhaar.table),
             t2 !! Py.fresh_id "ADR_" u2 = None ->
             exists row2,
               snd (Aadhaar.AadhaarStart_post u2 now2 data t2)
                 !! Py.fresh_id "ADR_" u2 = Some row2
               /\ Aadhaar.masked_aadhaar row2 = Aadhaar.masked_aadhaar row
               /\ Aadhaar.aadhaar_hash row2 = Aadhaar.aadhaar_hash row)
  /\ (forall old, t !! key = Some old -> out = (inl (DBError UniqueViolation), t))
  /\ String.length (Py.last_chars 4 number) = 4%nat
  /\ (exists front, number = front +:+ Py.last_chars 4 number).
Proof.
  intros Hv number key out.
  assert (Hrun : forall u' now' (t' : Aadhaar.table),
    t' !! Py.fresh_id "ADR_" u' = None ->
    exists resp row,
      Aadhaar.AadhaarStart_post u' now' data t'
        = (inr resp, <[Py.fresh_id "ADR_" u' := row]> t')
      /\ code resp = 201
      /\ Aadhaar.masked_aadhaar row = Aadhaar.masked number
      /\ Aadhaar.aadhaar_hash row = Aadhaar.a_hash number).
  { intros u' now' t' Hf.
    destruct (aadhaar_start_cases u' now' data t') as [(E & _ & _) | (e & _ & [F | F])].
    - do 2 eexists. split; [exact E |]. repeat split.
    - rewrite aadhaar_new_row_fits in F by exact Hv. discriminate.
    - rewrite Hf in F. destruct F as [? F]. discriminate. }
  split; [| split].
  - intros Hfresh.
    destruct (Hrun u now t Hfresh) as (resp & row & E & Hc & Hm & Hh).
    subst out. rewrite E. split; [exact Hc |].
    exists row. split; [apply lookup_insert_eq |]. split; [exact Hm |].
    split; [exact Hh |].
    intros u2 now2 t2 Hf2.
    destruct (Hrun u2 now2 t2 Hf2) as (resp2 & row2 & E2 & _ & Hm2 & Hh2).
    exists row2. rewrite E2. split; [apply lookup_insert_eq |]. split; congruence.
  - intros old Hold. subst out key.
    unfold Aadhaar.AadhaarStart_post, bind, add_commit.
    rewrite aadhaar_new_row_fits by exact Hv. simpl. now rewrite Hold.
  - assert (Hlen : String.length number = 12%nat).
    { unfold Aadhaar.AadhaarStartSchema in Hv.
      apply andb_true_iff in Hv as [Hlen _]. now apply length_equal_spec in Hlen. }
    apply last_chars_is_suffix. lia.
Qed.

(** C5, as the code has it.  A finalize call on an OTP_VERIFIED row answers
    200 with status LINKED.  The Aadhaar body is requestId, status,
    maskedAadhaar (the stored masked value) and message; the PAN body is
    requestId, status and message. *)
Theorem finalize_success_body
    (now : Z) (pan_id adr_id : string)
    (tp : Pan.table) (rp : Pan.PanRequestModel)
    (ta : Aadhaar.table) (ra : Aadhaar.AadhaarRequestModel) :
  tp !! pan_id = Some rp ->
  Pan.status rp = OTP_VERIFIED ->
  ta !! adr_id = Some ra ->
  Aadhaar.status ra = OTP_VERIFIED ->
  (exists resp,
     fst (Pan.PanFinalize_post now pan_id tp) = inr resp
     /\ code resp = 200
     /\ keys (body resp) = ["requestId"; "status"; "message"]
     /\ field "requestId" (body resp) = Some (VStr pan_id)
     /\ field "status" (body resp) = Some (VStr LINKED))
  /\
  (exists resp,
     fst (Aadhaar.AadhaarFinalize_post now adr_id ta) = inr resp
     /\ code resp = 200
     /\ keys (body resp) = ["requestId"; "status"; "maskedAadhaar"; "message"]
     /\ field "requestId" (body resp) = Some (VStr adr_id)
     /\ field "status" (body resp) = Some (VStr LINKED)
     /\ field "maskedAadhaar" (body resp) = Some (VStr (Aadhaar.masked_aadhaar ra))).
Proof.
  intros Hp Ep Ha Ea.
  rewrite (pan_finalize_found now pan_id tp rp Hp), Ep.
  rewrite (aadhaar_finalize_found now adr_id ta ra Ha), Ea.
  split; eexists; (split; [reflexivity |]); repeat split.
Qed.

(** The columns of a new PAN row fit, for a PAN of the pattern and a name of
    at most 100 characters. *)
Lemma pan_new_row_fits (u now : Z) (data : Pan.PanStart) :
  Pan.pan_pattern (Pan.panNumber data) = true ->
  varchar 100 (Pan.customerName data) = true ->
  Pan.fits (Py.fresh_id "PAN_" u)
    {| Pan.pan_number := Pan.panNumber data;
       Pan.customer_name := Pan.customerName data;
       Pan.status := PENDING_OTP;
       Pan.created_at := now; Pan.updated_at := now |} = true.
Proof.
  intros Hp Hn. unfold Pan.pan_pattern in Hp.
  apply andb_true_iff in Hp as [Hp _]. apply andb_true_iff in Hp as [Hp _].
  apply andb_true_iff in Hp as [Hlen _]. apply length_equal_spec in Hlen.
  unfold Pan.fits.
  cbn [Pan.pan_number Pan.customer_name Pan.status]. rewrite Hn.
  unfold varchar. rewrite fresh_id_length, Hlen. reflexivity.
Qed.

(** C6.  A PAN of the pattern [A-Z]{5}[0-9]{4}[A-Z] passes the schema.
    For every stored request with that PAN the status endpoint shows
    "******" followed by the last 4 characters of the PAN, whatever requests
    were served in between; in particular once the request is created
    (unused identifier, name within its column). *)
Theorem pan_masked_value (data : Pan.PanStart) :
  Pan.pan_pattern (Pan.panNumber data) = true ->
  let pan := Pan.panNumber data in
  Pan.PanStartSchema data = true
  /\ (forall (t : Pan.table) key r rqs,
        t !! key = Some r ->
        Pan.pan_number r = pan ->
        exists resp,
          fst (Pan.PanStatus_get key (Pan.serve rqs t)) = inr resp
          /\ code resp = 200
          /\ field "pan_number" (body resp)
             = Some (VStr ("******" +:+ Py.last_chars 4 pan)))
  /\ (forall u now (t : Pan.table) rqs,
        varchar 100 (Pan.customerName data) = true ->
        t !! Py.fresh_id "PAN_" u = None ->
        let created := Pan.PanStart_post u now data t in
        http_status created = 201
        /\ exists resp,
             fst (Pan.PanStatus_get (Py.fresh_id "PAN_" u)
                    (Pan.serve rqs (snd created))) = inr resp
             /\ code resp = 200
             /\ field "pan_number" (body resp)
                = Some (VStr ("******" +:+ Py.last_chars 4 pan)))
  /\ String.length (Py.last_chars 4 pan) = 4%nat
  /\ (exists front, pan = front +:+ Py.last_chars 4 pan).
Proof.
  intros Hp pan.
  assert (Hshown : forall (t : Pan.table) key r rqs,
    t !! key = Some r -> Pan.pan_number r = pan ->
    exists resp,
      fst (Pan.PanStatus_get key (Pan.serve rqs t)) = inr resp
      /\ code resp = 200
      /\ field "pan_number" (body resp)
         = Some (VStr ("******" +:+ Py.last_chars 4 pan))).
  { intros t key r rqs H Er.
    destruct (pan_serve_row rqs t key r H) as (r' & H' & Epan & _).
    rewrite (pan_status_found _ _ _ H'). eexists. split; [reflexivity |].
    split; [reflexivity |]. simpl. now rewrite Epan, Er. }
  split; [unfold Pan.PanStartSchema, Pan.pan_regexp; now rewrite Hp |].
  split; [exact Hshown |]. split.
  - intros u now t rqs Hn Hfresh created.
    assert (E : created =
      (inr (Response
              [ ("requestId", VStr (Py.fresh_id "PAN_" u));
                ("status", VStr PENDING_OTP);
                ("message", VStr "Linking request initiated. Please send OTP.") ]
              201),
       <[Py.fresh_id "PAN_" u :=
           {| Pan.pan_number := pan; Pan.customer_name := Pan.customerName data;
              Pan.status := PENDING_OTP;
              Pan.created_at := now; Pan.updated_at := now |}]> t)).
    { subst created.
      destruct (pan_start_cases u now data t) as [(E & _ & _) | (e & _ & [F | F])].
      - exact E.
      - rewrite pan_new_row_fits in F by assumption. discriminate.
      - rewrite Hfresh in F. destruct F as [? F]. discriminate. }
    rewrite E. split; [reflexivity |]. simpl snd.
    eapply Hshown; [apply lookup_insert_eq | reflexivity].
  - assert (Hlen : String.length pan = 10%nat).
    { unfold Pan.pan_pattern in Hp.
      apply andb_true_iff in Hp as [Hp' _]. apply andb_true_iff in Hp' as [Hp' _].
      apply andb_true_iff in Hp' as [Hlen _]. now apply length_equal_spec in Hlen. }
    apply last_chars_is_suffix. lia.
Qed.

(** C9.  Whatever requests follow, a stored link request keeps the columns
    it was created with: PAN number, customer name and creation time in the
    PAN table (so the masked PAN the status endpoint shows stays the same);
    hash, masked number, consent and creation time in the Aadhaar table.
    Only status and updated_at differ, and a row whose status is the same is
    the same row. *)
Theorem sensitive_columns_fixed
    (pan_id adr_id : string)
    (rqsp : list Pan.request) (tp : Pan.table) (rp : Pan.PanRequestModel)
    (rqsa : list Aadhaar.request) (ta : Aadhaar.table)
    (ra : Aadhaar.AadhaarRequestModel) :
  tp !! pan_id = Some rp ->
  ta !! adr_id = Some ra ->
  (exists rp',
     Pan.serve rqsp tp !! pan_id = Some rp'
     /\ Pan.pan_number rp' = Pan.pan_number rp
     /\ Pan.customer_name rp' = Pan.customer_name rp
     /\ Pan.created_at rp' = Pan.created_at rp
     /\ (forall resp resp',
           fst (Pan.PanStatus_get pan_id tp) = inr resp ->
           fst (Pan.PanStatus_get pan_id (Pan.serve rqsp tp)) = inr resp' ->
           field "pan_number" (body resp') = field "pan_number" (body resp)))
  /\ (exists ra',
        Aadhaar.serve rqsa ta !! adr_id = Some ra'
        /\ Aadhaar.aadhaar_hash ra' = Aadhaar.aadhaar_hash ra
        /\ Aadhaar.masked_aadhaar ra' = Aadhaar.masked_aadhaar ra
        /\ Aadhaar.consent_obtained ra' = Aadhaar.consent_obtained ra
        /\ Aadhaar.created_at ra' = Aadhaar.created_at ra)
  /\ (forall rq, exists rp',
        snd (Pan.handle rq tp) !! pan_id = Some rp'
        /\ Pan.touch (Pan.updated_at rp) (Pan.set_status (Pan.status rp) rp')
           = rp
        /\ (Pan.status rp' = Pan.status rp -> rp' = rp))
  /\ (forall rq, exists ra',
        snd (Aadhaar.handle rq ta) !! adr_id = Some ra'
        /\ Aadhaar.touch (Aadhaar.updated_at ra)
             (Aadhaar.set_status (Aadhaar.status ra) ra') = ra
        /\ (Aadhaar.status ra' = Aadhaar.status ra -> ra' = ra)).
Proof.
  intros Hp Ha. split; [| split; [| split]].
  - destruct (pan_serve_row rqsp tp pan_id rp Hp) as (rp' & H' & Ea & Eb & Ec).
    exists rp'. repeat split; try assumption.
    intros resp resp'.
    rewrite (pan_status_found _ _ _ Hp), (pan_status_found _ _ _ H').
    simpl. intros [= <-] [= <-]. simpl. now rewrite Ea.
  - destruct (aadhaar_serve_row rqsa ta adr_id ra Ha) as (ra' & H' & Ea & Eb & Ec & Ed).
    exists ra'. repeat split; assumption.
  - intros rq.
    destruct (pan_handle_row rq tp pan_id rp Hp) as (rp' & H' & Ea & Eb & Ec & _ & Es).
    exists rp'. split; [exact H' |]. split; [| exact Es].
    destruct rp, rp'; simpl in *. now subst.
  - intros rq.
    destruct (aadhaar_handle_row rq ta adr_id ra Ha)
      as (ra' & H' & Ea & Eb & Ec & Ed & _ & Es).
    exists ra'. split; [exact H' |]. split; [| exact Es].
    destruct ra, ra'; simpl in *. now subst.
Qed.

(** ** Statuses along a sequence of requests *)

Lemma transition_rank (s s' : string) :
  transition s s' -> rank s <> None -> rank s' <> None.
Proof. intros H Hs. destruct H; try exact Hs; discriminate. Qed.

Lemma pan_serve_rank (rqs : list Pan.request) (key : string) r :
  Pan.serve rqs ∅ !! key = Some r -> rank (Pan.status r) <> None.
Proof.
  revert r. induction rqs as [| rq rqs IH] using rev_ind; intros r H.
  - simpl in H. rewrite lookup_empty in H. discriminate.
  - rewrite pan_serve_app in H. simpl in H.
    destruct (Pan.serve rqs ∅ !! key) as [r0 |] eqn:H0.
    + destruct (pan_handle_row rq _ key r0 H0) as (r1 & H1 & _ & _ & _ & Htr & _).
      assert (r1 = r) by congruence. subst r1.
      eapply transition_rank; [exact Htr | now apply IH].
    + rewrite (pan_handle_new rq _ key r H0 H). discriminate.
Qed.

Lemma aadhaar_serve_rank (rqs : list Aadhaar.request) (key : string) r :
  Aadhaar.serve rqs ∅ !! key = Some r -> rank (Aadhaar.status r) <> None.
Proof.
  revert r. induction rqs as [| rq rqs IH] using rev_ind; intros r H.
  - simpl in H. rewrite lookup_empty in H. discriminate.
  - rewrite aadhaar_serve_app in H. simpl in H.
    destruct (Aadhaar.serve rqs ∅ !! key) as [r0 |] eqn:H0.
    + destruct (aadhaar_handle_row rq _ key r0 H0)
        as (r1 & H1 & _ & _ & _ & _ & Htr & _).
      assert (r1 = r) by congruence. subst r1.
      eapply transition_rank; [exact Htr | now apply IH].
    + rewrite (aadhaar_handle_new rq _ key r H0 H). discriminate.
Qed.

(** C3, as the code has it.  In both linking services, over every sequence
    of requests from the empty table, a row's status is one of the four
    texts, and a row that is LINKED was OTP_VERIFIED at an earlier point of
    the sequence.  One request changes a stored row's status by one
    [transition]: it stays, or send-otp sets OTP_SENT from any status, or
    verify-otp sets OTP_VERIFIED from any status, or finalize takes
    OTP_VERIFIED to LINKED; so a status that becomes LINKED was OTP_VERIFIED
    just before. *)
Theorem linked_only_through_otp_verified
    (rqsp : list Pan.request) (rqsa : list Aadhaar.request) :
  (forall key r,
      Pan.serve rqsp ∅ !! key = Some r ->
      rank (Pan.status r) <> None
      /\ (Pan.status r = LINKED ->
          exists before after r0,
            rqsp = before ++ after
            /\ Pan.serve before ∅ !! key = Some r0
            /\ Pan.status r0 = OTP_VERIFIED))
  /\ (forall rq (t : Pan.table) key r,
        t !! key = Some r ->
        exists r', snd (Pan.handle rq t) !! key = Some r'
          /\ transition (Pan.status r) (Pan.status r')
          /\ (Pan.status r' = LINKED ->
              Pan.status r = LINKED \/ Pan.status r = OTP_VERIFIED))
  /\ (forall key r,
        Aadhaar.serve rqsa ∅ !! key = Some r ->
        rank (Aadhaar.status r) <> None
        /\ (Aadhaar.status r = LINKED ->
            exists before after r0,
              rqsa = before ++ after
              /\ Aadhaar.serve before ∅ !! key = Some r0
              /\ Aadhaar.status r0 = OTP_VERIFIED))
  /\ (forall rq (t : Aadhaar.table) key r,
        t !! key = Some r ->
        exists r', snd (Aadhaar.handle rq t) !! key = Some r'
          /\ transition (Aadhaar.status r) (Aadhaar.status r')
          /\ (Aadhaar.status r' = LINKED ->
              Aadhaar.status r = LINKED \/ Aadhaar.status r = OTP_VERIFIED)).
Proof.
  split; [| split; [| split]].
  - intros key r H. split.
    + eapply pan_serve_rank, H.
    + intros Hl. eapply pan_linked_was_verified; eassumption.
  - intros rq t key r H.
    destruct (pan_handle_row rq t key r H) as (r' & H' & _ & _ & _ & Htr & _).
    exists r'. split; [exact H' |]. split; [exact Htr |].
    intros Hl. rewrite Hl in Htr. now apply transition_to_linked.
  - intros key r H. split.
    + eapply aadhaar_serve_rank, H.
    + intros Hl. eapply aadhaar_linked_was_verified; eassumption.
  - intros rq t key r H.
    destruct (aadhaar_handle_row rq t key r H) as (r' & H' & _ & _ & _ & _ & Htr & _).
    exists r'. split; [exact H' |]. split; [exact Htr |].
    intros Hl. rewrite Hl in Htr. now apply transition_to_linked.
Qed.

(** C3, as stated, fails: after the whole lifecycle the row is LINKED, and a
    further send-otp puts it back to OTP_SENT. *)
Lemma send_otp_moves_status_backward :
  exists r r',
    Aadhaar.serve Sample.adr_lifecycle ∅ !! Sample.adr_id = Some r
    /\ snd (Aadhaar.handle (Aadhaar.send_otp 104 Sample.adr_id)
              (Aadhaar.serve Sample.adr_lifecycle ∅)) !! Sample.adr_id = Some r'
    /\ Aadhaar.status r = LINKED
    /\ Aadhaar.status r' = OTP_SENT
    /\ ~ not_backward (Aadhaar.status r) (Aadhaar.status r').
Proof.
  exists (Sample.adr_row LINKED 103), (Sample.adr_row OTP_SENT 104).
  split; [vm_compute; reflexivity |].
  split; [vm_compute; reflexivity |].
  split; [reflexivity |]. split; [reflexivity |].
  intros (n & n' & Hn & Hn' & Hle). vm_compute in Hn, Hn'.
  injection Hn as <-. injection Hn' as <-. lia.
Qed.

(** C5, as stated, fails for PAN: the body of a successful finalize has the
    keys requestId, status and message, and none of its values is the masked
    PAN. *)
Lemma pan_finalize_body_without_masked_value :
  exists resp,
    fst (Pan.PanFinalize_post 103 Sample.pan_id
           (Pan.serve (firstn 3 Sample.pan_lifecycle) ∅)) = inr resp
    /\ code resp = 200
    /\ keys (body resp) = ["requestId"; "status"; "message"]
    /\ Forall (fun kv => snd kv <> VStr "******234F") (body resp).
Proof.
  eexists. split; [vm_compute; reflexivity |].
  split; [reflexivity |]. split; [reflexivity |].
  repeat constructor; discriminate.
Qed.

(** ** KYC: the summary of an invariant table *)

Lemma kyc_projection_uploaded (p : Kyc.DocumentModel -> bool)
      (l : list Kyc.DocumentModel) :
  Forall (fun d => Kyc.state d = Kyc.UPLOADED) l ->
  Forall (fun d : dict => field "status" d = Some (VStr "UPLOADED"))
    (map (fun d => [ ("id", VStr (Kyc.id d)); ("type", VStr (Kyc.document_type d));
                     ("status", VStr (Kyc.state d)) ])
         (List.filter p l)).
Proof.
  induction 1 as [| d l Hd _ IH]; simpl; [constructor |].
  destruct (p d); [| exact IH].
  simpl. constructor; [| exact IH]. simpl. now rewrite Hd.
Qed.

Lemma kyc_empty_invariant : all_created_uploaded Kyc.empty.
Proof.
  split; simpl.
  - intros key s H. rewrite lookup_empty in H. discriminate.
  - constructor.
Qed.

(** C10.  After any sequence of requests to the KYC service, started on
    empty tables, every session has status CREATED and every document state
    UPLOADED; a summary that answers reports status CREATED and lists every
    document as UPLOADED.  Further requests never write a stored session row
    again, and the document table only grows at its end. *)
Theorem kyc_status_never_changes (rqs : list Kyc.request) :
  let t := Kyc.serve rqs Kyc.empty in
  (forall key s, Kyc.kyc_sessions t !! key = Some s -> Kyc.status s = "CREATED")
  /\ Forall (fun d => Kyc.state d = "UPLOADED") (Kyc.kyc_documents t)
  /\ (forall sessionId resp,
        fst (Kyc.Summary_get sessionId t) = inr resp ->
        field "status" (body resp) = Some (VStr "CREATED")
        /\ exists docs,
             field "documents" (body resp) = Some (VList docs)
             /\ Forall (fun d : dict => field "status" d = Some (VStr "UPLOADED")) docs)
  /\ (forall more key s,
        Kyc.kyc_sessions t !! key = Some s ->
        Kyc.kyc_sessions (Kyc.serve more t) !! key = Some s)
  /\ (forall more, exists added,
        Kyc.kyc_documents (Kyc.serve more t) = Kyc.kyc_documents t ++ added).
Proof.
  intros t.
  destruct (kyc_serve_invariant rqs Kyc.empty kyc_empty_invariant) as [Hs Hd].
  fold t in Hs, Hd.
  split; [exact Hs |]. split; [exact Hd |]. split; [| split].
  - intros sessionId resp.
    destruct (Kyc.kyc_sessions t !! sessionId) as [s |] eqn:Hk.
    + rewrite (kyc_summary_found sessionId t s Hk). simpl. intros [= <-]. simpl.
      split; [now rewrite (Hs _ _ Hk) |].
      eexists. split; [reflexivity |].
      apply kyc_projection_uploaded, Hd.
    + destruct (kyc_missing sessionId t Hk) as (_ & ->). discriminate.
  - intros more key s. apply kyc_serve_session.
  - intros more. apply kyc_serve_documents.
Qed.

(* ===================================================================== *)
(** * The claims on the sample requests *)
(* ===================================================================== *)

(** C1 on the samples: finalize right after send-otp (PAN) is refused and
    changes nothing; finalize after verify-otp (Aadhaar) answers 200. *)
Lemma finalize_requires_otp_verified_witness :
  let tp := Pan.serve (firstn 2 Sample.pan_lifecycle) ∅ in
  let ta := Aadhaar.serve (firstn 3 Sample.adr_lifecycle) ∅ in
  tp !! Sample.pan_id = Some (Sample.pan_row OTP_SENT 101)
  /\ ta !! Sample.adr_id = Some (Sample.adr_row OTP_VERIFIED 102)
  /\ (http_status (Pan.PanFinalize_post 103 Sample.pan_id tp) = 400
      /\ snd (Pan.PanFinalize_post 103 Sample.pan_id tp) = tp)
  /\ http_status (Aadhaar.AadhaarFinalize_post 103 Sample.adr_id ta) = 200.
Proof.
  intros tp ta.
  assert (Hp : tp !! Sample.pan_id = Some (Sample.pan_row OTP_SENT 101))
    by (vm_compute; reflexivity).
  assert (Ha : ta !! Sample.adr_id = Some (Sample.adr_row OTP_VERIFIED 102))
    by (vm_compute; reflexivity).
  split; [exact Hp |]. split; [exact Ha |].
  destruct (finalize_requires_otp_verified 103 _ _ _ _ _ _ Hp Ha)
    as [(_ & _ & _ & P) (_ & A & _)].
  split.
  - apply P. right. left. reflexivity.
  - apply A. reflexivity.
Defined.

(** C2 on the sample: the scenario's create. *)
Lemma aadhaar_start_mask_and_hash_witness :
  let data := {| Aadhaar.aadhaarNumber := "123456789012";
                 Aadhaar.consentObtained := true |} in
  Aadhaar.AadhaarStartSchema data = true
  /\ http_status (Aadhaar.AadhaarStart_post Sample.adr_uuid 100 data ∅) = 201
  /\ (exists row,
        snd (Aadhaar.AadhaarStart_post Sample.adr_uuid 100 data ∅)
          !! Py.fresh_id "ADR_" Sample.adr_uuid = Some row
        /\ Aadhaar.masked_aadhaar row = "XXXX-XXXX-9012"
        /\ Aadhaar.aadhaar_hash row
           = "2a33349e7e606a8ad2e30e3c84521f9377450cf09083e162e0a9b1480ce0f972")
  /\ String.length (Py.last_chars 4 "123456789012") = 4%nat.
Proof.
  intros data.
  assert (Hv : Aadhaar.AadhaarStartSchema data = true) by reflexivity.
  split; [exact Hv |].
  destruct (aadhaar_start_mask_and_hash Sample.adr_uuid 100 data ∅ Hv)
    as (Hnew & _ & Hl & _).
  destruct Hnew as (Hc & row & Hrow & Hm & Hh & _); [vm_compute; reflexivity |].
  split; [exact Hc |]. split; [| exact Hl].
  exists row. split; [exact Hrow |]. split.
  - rewrite Hm. reflexivity.
  - rewrite Hh. vm_compute. reflexivity.
Defined.

(** C4 on the samples: verify-otp on rows that are already LINKED. *)
Lemma verify_otp_unconditional_witness :
  let tp := Pan.serve Sample.pan_lifecycle ∅ in
  let ta := Aadhaar.serve Sample.adr_lifecycle ∅ in
  tp !! Sample.pan_id = Some (Sample.pan_row LINKED 103)
  /\ ta !! Sample.adr_id = Some (Sample.adr_row LINKED 103)
  /\ http_status
       (Pan.PanVerifyOtp_post 104 {| otp := "wrong!" |} Sample.pan_id tp) = 200
  /\ http_status
       (Aadhaar.AadhaarVerifyOtp_post 104 {| otp := "wrong!" |} Sample.adr_id ta) = 200.
Proof.
  intros tp ta.
  assert (Hp : tp !! Sample.pan_id = Some (Sample.pan_row LINKED 103))
    by (vm_compute; reflexivity).
  assert (Ha : ta !! Sample.adr_id = Some (Sample.adr_row LINKED 103))
    by (vm_compute; reflexivity).
  split; [exact Hp |]. split; [exact Ha |].
  destruct (verify_otp_unconditional 104 {| otp := "wrong!" |} _ _ _ _ _ _ Hp Ha)
    as [(P & _) (A & _)].
  split; [exact P | exact A].
Defined.

(** C5 on the samples: the two bodies of a successful finalize. *)
Lemma finalize_success_body_witness :
  let tp := Pan.serve (firstn 3 Sample.pan_lifecycle) ∅ in
  let ta := Aadhaar.serve (firstn 3 Sample.adr_lifecycle) ∅ in
  tp !! Sample.pan_id = Some (Sample.pan_row OTP_VERIFIED 102)
  /\ ta !! Sample.adr_id = Some (Sample.adr_row OTP_VERIFIED 102)
  /\ exists resp,
       fst (Aadhaar.AadhaarFinalize_post 103 Sample.adr_id ta) = inr resp
       /\ code resp = 200
       /\ keys (body resp) = ["requestId"; "status"; "maskedAadhaar"; "message"]
       /\ field "requestId" (body resp) = Some (VStr Sample.adr_id)
       /\ field "status" (body resp) = Some (VStr LINKED)
       /\ field "maskedAadhaar" (body resp) = Some (VStr "XXXX-XXXX-9012").
Proof.
  intros tp ta.
  assert (Hp : tp !! Sample.pan_id = Some (Sample.pan_row OTP_VERIFIED 102))
    by (vm_compute; reflexivity).
  assert (Ha : ta !! Sample.adr_id = Some (Sample.adr_row OTP_VERIFIED 102))
    by (vm_compute; reflexivity).
  split; [exact Hp |]. split; [exact Ha |].
  exact (proj2 (finalize_success_body 103 _ _ _ _ _ _ Hp eq_refl Ha eq_refl)).
Defined.

(** C6 on the sample: ABCDE1234F is shown as ******234F after the whole
    lifecycle. *)
Lemma pan_masked_value_witness :
  Pan.pan_pattern (Pan.panNumber Sample.pan_data) = true
  /\ exists resp,
       fst (Pan.PanStatus_get (Py.fresh_id "PAN_" Sample.pan_uuid)
              (Pan.serve (tl Sample.pan_lifecycle)
                 (snd (Pan.PanStart_post Sample.pan_uuid 100 Sample.pan_data ∅))))
         = inr resp
       /\ code resp = 200
       /\ field "pan_number" (body resp) = Some (VStr "******234F").
Proof.
  assert (Hp : Pan.pan_pattern (Pan.panNumber Sample.pan_data) = true)
    by reflexivity.
  split; [exact Hp |].
  destruct (pan_masked_value Sample.pan_data Hp) as (_ & _ & H & _).
  destruct (H Sample.pan_uuid 100 ∅ (tl Sample.pan_lifecycle)) as (_ & Hshown).
  - reflexivity.
  - vm_compute. reflexivity.
  - exact Hshown.
Defined.

(** C7 on the samples: an identifier no table knows. *)
Lemma unknown_id_not_found_witness :
  let tp := Pan.serve Sample.pan_lifecycle ∅ in
  let ta := Aadhaar.serve Sample.adr_lifecycle ∅ in
  let tk := Kyc.serve Sample.kyc_requests Kyc.empty in
  tp !! "PAN_00000000" = None
  /\ ta !! "PAN_00000000" = None
  /\ Kyc.kyc_sessions tk !! "PAN_00000000" = None
  /\ Pan.PanStatus_get "PAN_00000000" tp = (inl (Abort 404 None), tp)
  /\ Kyc.Summary_get "PAN_00000000" tk = (inl (Abort 404 None), tk).
Proof.
  intros tp ta tk.
  assert (Hp : tp !! "PAN_00000000" = None) by (vm_compute; reflexivity).
  assert (Ha : ta !! "PAN_00000000" = None) by (vm_compute; reflexivity).
  assert (Hk : Kyc.kyc_sessions tk !! "PAN_00000000" = None)
    by (vm_compute; reflexivity).
  split; [exact Hp |]. split; [exact Ha |]. split; [exact Hk |].
  destruct (unknown_id_not_found "PAN_00000000" tp ta tk Hp Ha Hk)
    as ((_ & _ & _ & P & _ & _ & _ & _ & _ & K) & _).
  split; [exact P | exact K].
Defined.

(** C8 on the samples: a document for a session that was never created. *)
Lemma docs_post_unknown_session_witness :
  let t := Kyc.serve Sample.kyc_requests Kyc.empty in
  let data := {| Kyc.documentType := "PASSPORT"; Kyc.side_ := "FRONT";
                 Kyc.country_ := "IN" |} in
  Kyc.kyc_sessions t !! "sess_DEADBEEF" = None
  /\ http_status (Kyc.Docs_post 7 105 data "sess_DEADBEEF" t) = 404
  /\ Kyc.kyc_documents (snd (Kyc.Docs_post 7 105 data "sess_DEADBEEF" t))
     = Kyc.kyc_documents t.
Proof.
  intros t data.
  assert (H : Kyc.kyc_sessions t !! "sess_DEADBEEF" = None)
    by (vm_compute; reflexivity).
  split; [exact H |].
  destruct (docs_post_unknown_session 7 105 data "sess_DEADBEEF" t H)
    as (Hc & _ & Hd & _).
  split; [exact Hc | exact Hd].
Defined.

(** C9 on the samples: the rows just created, followed through the rest of
    the lifecycle. *)
Lemma sensitive_columns_fixed_witness :
  let tp := Pan.serve (firstn 1 Sample.pan_lifecycle) ∅ in
  let ta := Aadhaar.serve (firstn 1 Sample.adr_lifecycle) ∅ in
  tp !! Sample.pan_id = Some (Sample.pan_row PENDING_OTP 100)
  /\ ta !! Sample.adr_id = Some (Sample.adr_row PENDING_OTP 100)
  /\ exists ra',
       Aadhaar.serve (tl Sample.adr_lifecycle) ta !! Sample.adr_id = Some ra'
       /\ Aadhaar.aadhaar_hash ra'
          = Aadhaar.aadhaar_hash (Sample.adr_row PENDING_OTP 100)
       /\ Aadhaar.masked_aadhaar ra'
          = Aadhaar.masked_aadhaar (Sample.adr_row PENDING_OTP 100)
       /\ Aadhaar.consent_obtained ra'
          = Aadhaar.consent_obtained (Sample.adr_row PENDING_OTP 100)
       /\ Aadhaar.created_at ra'
          = Aadhaar.created_at (Sample.adr_row PENDING_OTP 100).
Proof.
  intros tp ta.
  assert (Hp : tp !! Sample.pan_id = Some (Sample.pan_row PENDING_OTP 100))
    by (vm_compute; reflexivity).
  assert (Ha : ta !! Sample.adr_id = Some (Sample.adr_row PENDING_OTP 100))
    by (vm_compute; reflexivity).
  split; [exact Hp |]. split; [exact Ha |].
  destruct (sensitive_columns_fixed _ _ (tl Sample.pan_lifecycle) _ _
              (tl Sample.adr_lifecycle) _ _ Hp Ha) as (_ & A & _).
  exact A.
Defined.

(** ** Worked examples *)

(** The tables of FIPS 180-4, section 4.2.2 and 5.3.3, at their ends. *)
Example sha256_tables :
  length SHA256.primes = 64%nat
  /\ List.last SHA256.primes 0 = 311
  /\ hd 0 SHA256.round_constants = 0x428a2f98
  /\ List.last SHA256.round_constants 0 = 0xc67178f2
  /\ hd 0 SHA256.initial_hash = 0x6a09e667
  /\ List.last SHA256.initial_hash 0 = 0x5be0cd19.
Proof. repeat split. Qed.

Example sha256_abc :
  SHA256.hexdigest (Py.encode "abc")
  = "ba7816bf8f01cfea414140de5dae2223b00361a396177a9cb410ff61f20015ad".
Proof. vm_compute. reflexivity. Qed.

Example sha256_empty :
  SHA256.hexdigest []
  = "e3b0c44298fc1c149afbf4c8996fb92427ae41e4649b934ca495991b7852b855".
Proof. vm_compute. reflexivity. Qed.

(** Seventy bytes: two blocks. *)
Example sha256_two_blocks :
  SHA256.hexdigest (repeat 97 70)
  = "6bd5e5034855a11241f0dee8fc72850ffd9955b28347a86428b5fa19119f6ad0".
Proof. vm_compute. reflexivity. Qed.

(** The scenario of the specification: create, send-otp, verify-otp with
    000000, finalize. *)
Example aadhaar_scenario :
  map (fun n => Aadhaar.status <$>
                  (Aadhaar.serve (firstn n Sample.adr_lifecycle) ∅ !! Sample.adr_id))
      [1; 2; 3; 4]%nat
  = [Some PENDING_OTP; Some OTP_SENT; Some OTP_VERIFIED; Some LINKED]
  /\ fst (Aadhaar.handle (Aadhaar.finalize 103 Sample.adr_id)
            (Aadhaar.serve (firstn 3 Sample.adr_lifecycle) ∅))
     = inr (Response
              [ ("requestId", VStr "ADR_ABCDEF01"); ("status", VStr "LINKED");
                ("maskedAadhaar", VStr "XXXX-XXXX-9012");
                ("message", VStr "Aadhaar successfully linked to the primary account.") ]
              200).
Proof. split; vm_compute; reflexivity. Qed.

(** Finalize immediately after creation: 400, status remains PENDING_OTP. *)
Example aadhaar_finalize_too_early :
  let t := Aadhaar.serve [Sample.adr_create] ∅ in
  http_status (Aadhaar.AadhaarFinalize_post 101 Sample.adr_id t) = 400
  /\ snd (Aadhaar.AadhaarFinalize_post 101 Sample.adr_id t) !! Sample.adr_id
     = Some (Sample.adr_row PENDING_OTP 100).
Proof. split; vm_compute; reflexivity. Qed.

(** The same generated identifier twice: the second create is refused by the
    primary key and stores nothing. *)
Example aadhaar_duplicate_id :
  let t := Aadhaar.serve [Sample.adr_create] ∅ in
  Aadhaar.handle Sample.adr_create t = (inl (DBError UniqueViolation), t).
Proof. vm_compute. reflexivity. Qed.

(** The pattern, and the newline that [$] lets through to the ten-character
    column. *)
Example pan_regexp_examples :
  Pan.pan_regexp "ABCDE1234F" = true
  /\ Pan.pan_regexp "ABCDE1234" = false
  /\ Pan.pan_regexp "abcde1234F" = false
  /\ Pan.pan_pattern ("ABCDE1234F" +:+ Pan.newline) = false
  /\ Pan.pan_regexp ("ABCDE1234F" +:+ Pan.newline) = true
  /\ Pan.PanStart_post 1 100
       {| Pan.panNumber := "ABCDE1234F" +:+ Pan.newline;
          Pan.customerName := "A Kumar" |} ∅
     = (inl (DBError StringTooLong), ∅).
Proof. repeat split; vm_compute; reflexivity. Qed.

(** The decorators answer before the body: no token 401, a five-character
    OTP 422, and only then the unknown identifier 404. *)
Example verify_otp_view_order :
  http_status (Pan.PanVerifyOtp_view false 100 "PAN_00000000" {| otp := "12345" |} ∅)
    = 401
  /\ http_status (Pan.PanVerifyOtp_view true 100 "PAN_00000000" {| otp := "12345" |} ∅)
     = 422
  /\ http_status (Pan.PanVerifyOtp_view true 100 "PAN_00000000" {| otp := "123456" |} ∅)
     = 404.
Proof. repeat split. Qed.

(** The KYC sample: one session, one document, and its summary. *)
Example kyc_summary_sample :
  fst (Kyc.Summary_get Sample.kyc_id (Kyc.serve Sample.kyc_requests Kyc.empty))
  = inr (Response
           [ ("sessionId", VStr "sess_00C0FFEE"); ("status", VStr "CREATED");
             ("documentCount", VInt 1);
             ("documents",
              VList [ [ ("id", VStr "doc_D0C00001"); ("type", VStr "PAN");
                        ("status", VStr "UPLOADED") ] ]) ]
           200).
Proof. vm_compute. reflexivity. Qed.

(* ===================================================================== *)
(** * Further properties of the services *)
(* ===================================================================== *)

(** ** Generated identifiers *)

Lemma land_15_range (z : Z) : 0 <= Z.land z 15 < 16.
Proof.
  change 15 with (Z.ones 4). rewrite Z.land_ones by lia.
  apply Z.mod_pos_bound. reflexivity.
Qed.

Lemma hex_digit_upper_hex (d : Z) :
  0 <= d < 16 -> is_upper_hex (Py.upper_char (Py.hex_digit d)) = true.
Proof.
  intros H.
  assert (Hd : d = 0 \/ d = 1 \/ d = 2 \/ d = 3 \/ d = 4 \/ d = 5 \/ d = 6 \/ d = 7
               \/ d = 8 \/ d = 9 \/ d = 10 \/ d = 11 \/ d = 12 \/ d = 13 \/ d = 14
               \/ d = 15) by lia.
  repeat (destruct Hd as [-> | Hd]; [reflexivity |]). subst d. reflexivity.
Qed.

Lemma upper_hex_all (n : nat) (x : Z) :
  Pan.all_chars is_upper_hex (Py.upper (Py.hex n x)) = true.
Proof.
  induction n as [| n IH]; [reflexivity |].
  cbn [Py.hex Py.upper Pan.all_chars].
  rewrite IH, hex_digit_upper_hex by apply land_15_range. reflexivity.
Qed.

Lemma upper_length (s : string) : String.length (Py.upper s) = String.length s.
Proof. induction s as [| c s IH]; simpl; [reflexivity | now rewrite IH]. Qed.

(** The first eight of the thirty-two digits are the digits of the top
    thirty-two bits. *)
Lemma hex_top_digits (x : Z) :
  Py.first_chars 8 (Py.hex 32 x) = Py.hex 8 (Z.shiftr x 96).
Proof.
  cbv beta iota zeta delta [Py.hex Py.first_chars String.substring].
  repeat (f_equal; [rewrite Z.shiftr_shiftr by lia; reflexivity |]).
  reflexivity.
Qed.

Lemma uuid_top_bits (u : Z) :
  Z.shiftr (u mod 2 ^ 128) 96 = (u / 2 ^ 96) mod 2 ^ 32.
Proof.
  rewrite Z.shiftr_div_pow2 by lia.
  change (2 ^ 128) with (2 ^ 96 * 2 ^ 32).
  rewrite Z.rem_mul_r by lia.
  rewrite Z.mul_comm, Z.div_add by lia.
  rewrite Z.div_small by (apply Z.mod_pos_bound; reflexivity).
  reflexivity.
Qed.

(** X1.  A generated identifier is the prefix followed by the top 32 bits of
    the UUID as eight digits 0-9, A-F; so two UUIDs with the same top 32
    bits give the same identifier. *)
Theorem fresh_id_shape (prefix : string) (u : Z) :
  Py.fresh_id prefix u
  = prefix +:+ Py.upper (Py.hex 8 ((u / 2 ^ 96) mod 2 ^ 32))
  /\ (exists suffix,
        Py.fresh_id prefix u = prefix +:+ suffix
        /\ String.length suffix = 8%nat
        /\ Pan.all_chars is_upper_hex suffix = true)
  /\ (forall u',
        (u' / 2 ^ 96) mod 2 ^ 32 = (u / 2 ^ 96) mod 2 ^ 32 ->
        Py.fresh_id prefix u' = Py.fresh_id prefix u).
Proof.
  assert (E : forall v, Py.fresh_id prefix v
                        = prefix +:+ Py.upper (Py.hex 8 ((v / 2 ^ 96) mod 2 ^ 32))).
  { intros v. unfold Py.fresh_id, Py.uuid_hex.
    now rewrite hex_top_digits, uuid_top_bits. }
  split; [apply E |]. split.
  - eexists. split; [apply E |]. split.
    + now rewrite upper_length, hex_length.
    + apply upper_hex_all.
  - intros u' H. now rewrite !E, H.
Qed.

(** ** Creating a link request *)

Lemma pan_fits_columns (u now : Z) (data : Pan.PanStart) :
  Pan.fits (Py.fresh_id "PAN_" u)
    {| Pan.pan_number := Pan.panNumber data;
       Pan.customer_name := Pan.customerName data;
       Pan.status := PENDING_OTP;
       Pan.created_at := now; Pan.updated_at := now |}
  = varchar 10 (Pan.panNumber data) && varchar 100 (Pan.customerName data).
Proof.
  unfold Pan.fits. cbn [Pan.pan_number Pan.customer_name Pan.status].
  unfold varchar at 1. rewrite fresh_id_length.
  change (varchar 30 PENDING_OTP) with true.
  cbn [String.length Nat.add Nat.leb andb]. now rewrite andb_true_r.
Qed.

(** X2.  [PanStart.post] with an unused generated identifier and values that
    fit their columns answers 201 with that identifier and PENDING_OTP,
    stores exactly one new row (the PAN and name as given, both timestamps
    the current time), leaves every other row alone, and the status endpoint
    finds the new request at once. *)
Theorem pan_start_round_trip
    (u now : Z) (data : Pan.PanStart) (t : Pan.table) :
  varchar 10 (Pan.panNumber data) = true ->
  varchar 100 (Pan.customerName data) = true ->
  t !! Py.fresh_id "PAN_" u = None ->
  let key := Py.fresh_id "PAN_" u in
  let out := Pan.PanStart_post u now data t in
  fst out
  = inr (Response
           [ ("requestId", VStr key); ("status", VStr "PENDING_OTP");
             ("message", VStr "Linking request initiated. Please send OTP.") ]
           201)
  /\ snd out !! key
     = Some {| Pan.pan_number := Pan.panNumber data;
               Pan.customer_name := Pan.customerName data;
               Pan.status := "PENDING_OTP";
               Pan.created_at := now; Pan.updated_at := now |}
  /\ (forall k, k <> key -> snd out !! k = t !! k)
  /\ size (snd out) = S (size t)
  /\ fst (Pan.PanStatus_get key (snd out))
     = inr (Response
              [ ("requestId", VStr key); ("status", VStr "PENDING_OTP");
                ("pan_number",
                 VStr ("******" +:+ Py.last_chars 4 (Pan.panNumber data)));
                ("updatedAt", VTime now) ]
              200).
Proof.
  intros Hp Hn Hfresh key out.
  destruct (pan_start_cases u now data t) as [(E & _ & _) | (e & _ & [F | F])].
  - subst out. rewrite E. cbn [fst snd]. fold key.
    split; [reflexivity |]. split; [apply lookup_insert_eq |].
    split; [intros k Hk; now apply lookup_insert_ne |].
    split; [now apply map_size_insert_None |].
    erewrite pan_status_found by apply lookup_insert_eq. reflexivity.
  - rewrite pan_fits_columns, Hp, Hn in F. discriminate.
  - rewrite Hfresh in F. destruct F as [? F]. discriminate.
Qed.

Lemma pan_regexp_length (s : string) :
  Pan.pan_regexp s = true ->
  String.length s = 10%nat \/ String.length s = 11%nat.
Proof.
  unfold Pan.pan_regexp. intros H. apply orb_true_iff in H as [H | H].
  - left. unfold Pan.pan_pattern in H.
    apply andb_true_iff in H as [H _]. apply andb_true_iff in H as [H _].
    apply andb_true_iff in H as [H _]. now apply length_equal_spec in H.
  - right. apply andb_true_iff in H as [_ H]. unfold Pan.pan_pattern in H.
    apply andb_true_iff in H as [H _]. apply andb_true_iff in H as [H _].
    apply andb_true_iff in H as [H _]. apply length_equal_spec in H.
    rewrite substring_length in H by lia. lia.
Qed.


(** X4.  [AadhaarStart.post] with a payload the schema accepts and an unused
    generated identifier answers 201 with that identifier and PENDING_OTP,
    stores exactly one new row and leaves every other row alone; the status
    endpoint then shows the masked number, never the hash. *)
Theorem aadhaar_start_round_trip
    (u now : Z) (data : Aadhaar.AadhaarStart) (t : Aadhaar.table) :
  Aadhaar.AadhaarStartSchema data = true ->
  t !! Py.fresh_id "ADR_" u = None ->
  let key := Py.fresh_id "ADR_" u in
  let out := Aadhaar.AadhaarStart_post u now data t in
  fst out
  = inr (Response
           [ ("requestId", VStr key); ("status", VStr "PENDING_OTP");
             ("message", VStr "Aadhaar linking initiated. Consent verified.") ]
           201)
  /\ (exists row,
        snd out !! key = Some row
        /\ Aadhaar.status row = "PENDING_OTP"
        /\ Aadhaar.consent_obtained row = true
        /\ Aadhaar.created_at row = now
        /\ Aadhaar.updated_at row = now)
  /\ (forall k, k <> key -> snd out !! k = t !! k)
  /\ size (snd out) = S (size t)
  /\ fst (Aadhaar.AadhaarStatus_get key (snd out))
     = inr (Response
              [ ("requestId", VStr key); ("status", VStr "PENDING_OTP");
                ("maskedAadhaar",
                 VStr ("XXXX-XXXX-" +:+ Py.last_chars 4 (Aadhaar.aadhaarNumber data)));
                ("updatedAt", VTime now) ]
              200).
Proof.
  intros Hv Hfresh key out.
  assert (Hc : Aadhaar.consentObtained data = true).
  { unfold Aadhaar.AadhaarStartSchema in Hv. apply andb_true_iff in Hv as [_ Hc].
    now destruct (Aadhaar.consentObtained data). }
  destruct (aadhaar_start_cases u now data t) as [(E & _ & _) | (e & _ & [F | F])].
  - subst out. rewrite E. cbn [fst snd]. fold key.
    split; [reflexivity |]. split.
    + eexists. split; [apply lookup_insert_eq |]. repeat split. exact Hc.
    + split; [intros k Hk; now apply lookup_insert_ne |].
      split; [now apply map_size_insert_None |].
      erewrite aadhaar_status_found by apply lookup_insert_eq. reflexivity.
  - rewrite aadhaar_new_row_fits in F by exact Hv. discriminate.
  - rewrite Hfresh in F. destruct F as [? F]. discriminate.
Qed.

(** ** The steps of the lifecycle *)

(** X5.  send-otp on a stored request answers 200 and leaves it in status
    OTP_SENT whatever the status was (also LINKED); a second send-otp gives
    the same answer and changes nothing more, not even updated_at. *)
Theorem send_otp_idempotent
    (now : Z) (pan_id adr_id : string)
    (tp : Pan.table) (rp : Pan.PanRequestModel)
    (ta : Aadhaar.table) (ra : Aadhaar.AadhaarRequestModel) :
  tp !! pan_id = Some rp ->
  ta !! adr_id = Some ra ->
  let outp := Pan.PanSendOtp_post now pan_id tp in
  let outa := Aadhaar.AadhaarSendOtp_post now adr_id ta in
  (http_status outp = 200
   /\ (exists r', snd outp !! pan_id = Some r' /\ Pan.status r' = OTP_SENT)
   /\ (forall later, Pan.PanSendOtp_post later pan_id (snd outp) = (fst outp, snd outp)))
  /\
  (http_status outa = 200
   /\ (exists r', snd outa !! adr_id = Some r' /\ Aadhaar.status r' = OTP_SENT)
   /\ (forall later,
         Aadhaar.AadhaarSendOtp_post later adr_id (snd outa) = (fst outa, snd outa))).
Proof.
  intros Hp Ha outp outa. subst outp outa. split.
  - rewrite (pan_send_otp_found now pan_id tp rp Hp). cbn [fst snd].
    split; [reflexivity |].
    destruct (String.eqb_spec (Pan.status rp) OTP_SENT) as [E | E].
    + split; [eauto |]. intros later.
      rewrite (pan_send_otp_found later pan_id tp rp Hp).
      apply String.eqb_eq in E. now rewrite E.
    + split; [eexists; split; [apply lookup_insert_eq | reflexivity] |].
      intros later.
      erewrite pan_send_otp_found by apply lookup_insert_eq. reflexivity.
  - rewrite (aadhaar_send_otp_found now adr_id ta ra Ha). cbn [fst snd].
    split; [reflexivity |].
    destruct (String.eqb_spec (Aadhaar.status ra) OTP_SENT) as [E | E].
    + split; [eauto |]. intros later.
      rewrite (aadhaar_send_otp_found later adr_id ta ra Ha).
      apply String.eqb_eq in E. now rewrite E.
    + split; [eexists; split; [apply lookup_insert_eq | reflexivity] |].
      intros later.
      erewrite aadhaar_send_otp_found by apply lookup_insert_eq. reflexivity.
Qed.

Lemma pan_handle_failure (rq : Pan.request) (t : Pan.table) e :
  fst (Pan.handle rq t) = inl e -> snd (Pan.handle rq t) = t.
Proof.
  destruct rq as [u now data | now k | now data k | now k | k]; simpl.
  - destruct (pan_start_cases u now data t) as [(E & _) | (e' & E & _)];
      rewrite E; [discriminate | reflexivity].
  - destruct (t !! k) as [r |] eqn:Hk.
    + rewrite (pan_send_otp_found now k t r Hk). discriminate.
    + destruct (pan_missing k t Hk) as (-> & _). reflexivity.
  - destruct (t !! k) as [r |] eqn:Hk.
    + rewrite (pan_verify_otp_found now data k t r Hk). discriminate.
    + destruct (pan_missing k t Hk) as (_ & -> & _). reflexivity.
  - destruct (t !! k) as [r |] eqn:Hk.
    + rewrite (pan_finalize_found now k t r Hk).
      destruct (String.eqb _ _); [discriminate | reflexivity].
    + destruct (pan_missing k t Hk) as (_ & _ & -> & _). reflexivity.
  - destruct (t !! k) as [r |] eqn:Hk.
    + rewrite (pan_status_found k t r Hk). discriminate.
    + destruct (pan_missing k t Hk) as (_ & _ & _ & ->). reflexivity.
Qed.

Lemma aadhaar_handle_failure (rq : Aadhaar.request) (t : Aadhaar.table) e :
  fst (Aadhaar.handle rq t) = inl e -> snd (Aadhaar.handle rq t) = t.
Proof.
  destruct rq as [u now data | now k | now data k | now k | k]; simpl.
  - destruct (aadhaar_start_cases u now data t) as [(E & _) | (e' & E & _)];
      rewrite E; [discriminate | reflexivity].
  - destruct (t !! k) as [r |] eqn:Hk.
    + rewrite (aadhaar_send_otp_found now k t r Hk). discriminate.
    + destruct (aadhaar_missing k t Hk) as (-> & _). reflexivity.
  - destruct (t !! k) as [r |] eqn:Hk.
    + rewrite (aadhaar_verify_otp_found now data k t r Hk). discriminate.
    + destruct (aadhaar_missing k t Hk) as (_ & -> & _). reflexivity.
  - destruct (t !! k) as [r |] eqn:Hk.
    + rewrite (aadhaar_finalize_found now k t r Hk).
      destruct (String.eqb _ _); [discriminate | reflexivity].
    + destruct (aadhaar_missing k t Hk) as (_ & _ & -> & _). reflexivity.
  - destruct (t !! k) as [r |] eqn:Hk.
    + rewrite (aadhaar_status_found k t r Hk). discriminate.
    + destruct (aadhaar_missing k t Hk) as (_ & _ & _ & ->). reflexivity.
Qed.

Lemma kyc_handle_failure (rq : Kyc.request) (t : Kyc.tables) e :
  fst (Kyc.handle rq t) = inl e -> snd (Kyc.handle rq t) = t.
Proof.
  destruct rq as [u now data | u now data sid | sid]; simpl.
  - unfold Kyc.Sessions_post, bind, Kyc.add_session.
    match goal with
    | |- context [add_commit ?k ?s ?ok ?m] =>
        destruct (add_commit_cases k s ok m) as [(E & _) | (e' & E & _)]; rewrite E
    end; simpl; [discriminate | intros _; now destruct t].
  - destruct (Kyc.kyc_sessions t !! sid) as [s |] eqn:Hs.
    + unfold Kyc.Docs_post, bind. rewrite (kyc_session_found _ _ _ Hs).
      unfold Kyc.add_document.
      destruct (negb _); [reflexivity |].
      destruct (existsb _ _); [reflexivity | discriminate].
    + destruct (kyc_missing sid t Hs) as (-> & _). reflexivity.
  - destruct (Kyc.kyc_sessions t !! sid) as [s |] eqn:Hs.
    + rewrite (kyc_summary_found sid t s Hs). discriminate.
    + destruct (kyc_missing sid t Hs) as (_ & ->). reflexivity.
Qed.

(** X6.  In the three services a request that fails (404, 400 or a refused
    insert) leaves the tables exactly as they were, and the two status
    endpoints and the summary never write, whether they answer or fail. *)
Theorem failures_and_reads_write_nothing :
  (forall rq (t : Pan.table) e,
      fst (Pan.handle rq t) = inl e -> snd (Pan.handle rq t) = t)
  /\ (forall rq (t : Aadhaar.table) e,
        fst (Aadhaar.handle rq t) = inl e -> snd (Aadhaar.handle rq t) = t)
  /\ (forall rq (t : Kyc.tables) e,
        fst (Kyc.handle rq t) = inl e -> snd (Kyc.handle rq t) = t)
  /\ (forall requestId (t : Pan.table), snd (Pan.PanStatus_get requestId t) = t)
  /\ (forall requestId (t : Aadhaar.table),
        snd (Aadhaar.AadhaarStatus_get requestId t) = t)
  /\ (forall sessionId (t : Kyc.tables), snd (Kyc.Summary_get sessionId t) = t).
Proof.
  split; [exact pan_handle_failure |].
  split; [exact aadhaar_handle_failure |].
  split; [exact kyc_handle_failure |].
  split; [| split].
  - intros k t. destruct (t !! k) as [r |] eqn:Hk.
    + now rewrite (pan_status_found k t r Hk).
    + now destruct (pan_missing k t Hk) as (_ & _ & _ & ->).
  - intros k t. destruct (t !! k) as [r |] eqn:Hk.
    + now rewrite (aadhaar_status_found k t r Hk).
    + now destruct (aadhaar_missing k t Hk) as (_ & _ & _ & ->).
  - intros k t. destruct (Kyc.kyc_sessions t !! k) as [s |] eqn:Hk.
    + now rewrite (kyc_summary_found k t s Hk).
    + now destruct (kyc_missing k t Hk) as (_ & ->).
Qed.

(** X7.  A finalize that succeeded cannot be repeated: on a request in status
    OTP_VERIFIED the first finalize answers 200, a second one 400, and the
    second one changes nothing. *)
Theorem finalize_not_repeatable
    (now later : Z) (pan_id adr_id : string)
    (tp : Pan.table) (rp : Pan.PanRequestModel)
    (ta : Aadhaar.table) (ra : Aadhaar.AadhaarRequestModel) :
  tp !! pan_id = Some rp ->
  Pan.status rp = OTP_VERIFIED ->
  ta !! adr_id = Some ra ->
  Aadhaar.status ra = OTP_VERIFIED ->
  let outp := Pan.PanFinalize_post now pan_id tp in
  let outa := Aadhaar.AadhaarFinalize_post now adr_id ta in
  (http_status outp = 200
   /\ Pan.PanFinalize_post later pan_id (snd outp)
      = (inl (Abort 400 (Some "OTP must be verified before finalizing link.")),
         snd outp))
  /\
  (http_status outa = 200
   /\ Aadhaar.AadhaarFinalize_post later adr_id (snd outa)
      = (inl (Abort 400 (Some "Aadhaar OTP must be verified before final link.")),
         snd outa)).
Proof.
  intros Hp Ep Ha Ea outp outa. subst outp outa.
  rewrite (pan_finalize_found now pan_id tp rp Hp), Ep.
  rewrite (aadhaar_finalize_found now adr_id ta ra Ha), Ea.
  cbn [fst snd String.eqb]. split; (split; [reflexivity |]).
  - erewrite pan_finalize_found by apply lookup_insert_eq. reflexivity.
  - erewrite aadhaar_finalize_found by apply lookup_insert_eq. reflexivity.
Qed.

(** X8.  send-otp is not needed: on a stored request in any status,
    verify-otp (with any OTP) followed by finalize answers 200 twice and
    leaves the request LINKED, with updated_at the time of the finalize. *)
Theorem verify_then_finalize_links
    (now later : Z) (data : OtpVerify) (pan_id adr_id : string)
    (tp : Pan.table) (rp : Pan.PanRequestModel)
    (ta : Aadhaar.table) (ra : Aadhaar.AadhaarRequestModel) :
  tp !! pan_id = Some rp ->
  ta !! adr_id = Some ra ->
  let vp := Pan.PanVerifyOtp_post now data pan_id tp in
  let fp := Pan.PanFinalize_post later pan_id (snd vp) in
  let va := Aadhaar.AadhaarVerifyOtp_post now data adr_id ta in
  let fa := Aadhaar.AadhaarFinalize_post later adr_id (snd va) in
  (http_status vp = 200 /\ http_status fp = 200
   /\ snd fp !! pan_id
      = Some (Pan.touch later (Pan.set_status LINKED rp)))
  /\
  (http_status va = 200 /\ http_status fa = 200
   /\ snd fa !! adr_id
      = Some (Aadhaar.touch later (Aadhaar.set_status LINKED ra))).
Proof.
  intros Hp Ha vp fp va fa. subst vp fp va fa. split.
  - rewrite (pan_verify_otp_found now data pan_id tp rp Hp). cbn [fst snd].
    split; [reflexivity |].
    destruct (String.eqb_spec (Pan.status rp) OTP_VERIFIED) as [E | E].
    + rewrite (pan_finalize_found later pan_id tp rp Hp), E.
      cbn [String.eqb]. split; [reflexivity |]. apply lookup_insert_eq.
    + erewrite pan_finalize_found by apply lookup_insert_eq.
      cbn [Pan.status Pan.touch Pan.set_status].
      change (String.eqb OTP_VERIFIED OTP_VERIFIED) with true. cbn iota.
      split; [reflexivity |]. cbn [snd]. rewrite lookup_insert_eq. reflexivity.
  - rewrite (aadhaar_verify_otp_found now data adr_id ta ra Ha). cbn [fst snd].
    split; [reflexivity |].
    destruct (String.eqb_spec (Aadhaar.status ra) OTP_VERIFIED) as [E | E].
    + rewrite (aadhaar_finalize_found later adr_id ta ra Ha), E.
      cbn [String.eqb]. split; [reflexivity |]. apply lookup_insert_eq.
    + erewrite aadhaar_finalize_found by apply lookup_insert_eq.
      cbn [Aadhaar.status Aadhaar.touch Aadhaar.set_status].
      change (String.eqb OTP_VERIFIED OTP_VERIFIED) with true. cbn iota.
      split; [reflexivity |]. cbn [snd]. rewrite lookup_insert_eq. reflexivity.
Qed.

(** X9.  A request only touches the row it addresses: after any request,
    every row under another identifier is exactly the row it was. *)
Theorem other_requests_untouched
    (rqp : Pan.request) (tp : Pan.table) (rqa : Aadhaar.request)
    (ta : Aadhaar.table) (key : string) :
  key <> pan_subject rqp ->
  key <> aadhaar_subject rqa ->
  snd (Pan.handle rqp tp) !! key = tp !! key
  /\ snd (Aadhaar.handle rqa ta) !! key = ta !! key.
Proof.
  intros Np Na. split.
  - destruct rqp as [u now data | now k | now data k | now k | k]; simpl in *.
    + destruct (pan_start_cases u now data tp) as [(E & _) | (e & E & _)];
        rewrite E; [| reflexivity].
      simpl. now rewrite lookup_insert_ne.
    + destruct (tp !! k) as [r |] eqn:Hk.
      * rewrite (pan_send_otp_found now k tp r Hk). simpl.
        destruct (String.eqb _ _); [reflexivity | now rewrite lookup_insert_ne].
      * now destruct (pan_missing k tp Hk) as (-> & _).
    + destruct (tp !! k) as [r |] eqn:Hk.
      * rewrite (pan_verify_otp_found now data k tp r Hk). simpl.
        destruct (String.eqb _ _); [reflexivity | now rewrite lookup_insert_ne].
      * now destruct (pan_missing k tp Hk) as (_ & -> & _).
    + destruct (tp !! k) as [r |] eqn:Hk.
      * rewrite (pan_finalize_found now k tp r Hk).
        destruct (String.eqb _ _); simpl; [now rewrite lookup_insert_ne | reflexivity].
      * now destruct (pan_missing k tp Hk) as (_ & _ & -> & _).
    + destruct (tp !! k) as [r |] eqn:Hk.
      * now rewrite (pan_status_found k tp r Hk).
      * now destruct (pan_missing k tp Hk) as (_ & _ & _ & ->).
  - destruct rqa as [u now data | now k | now data k | now k | k]; simpl in *.
    + destruct (aadhaar_start_cases u now data ta) as [(E & _) | (e & E & _)];
        rewrite E; [| reflexivity].
      simpl. now rewrite lookup_insert_ne.
    + destruct (ta !! k) as [r |] eqn:Hk.
      * rewrite (aadhaar_send_otp_found now k ta r Hk). simpl.
        destruct (String.eqb _ _); [reflexivity | now rewrite lookup_insert_ne].
      * now destruct (aadhaar_missing k ta Hk) as (-> & _).
    + destruct (ta !! k) as [r |] eqn:Hk.
      * rewrite (aadhaar_verify_otp_found now data k ta r Hk). simpl.
        destruct (String.eqb _ _); [reflexivity | now rewrite lookup_insert_ne].
      * now destruct (aadhaar_missing k ta Hk) as (_ & -> & _).
    + destruct (ta !! k) as [r |] eqn:Hk.
      * rewrite (aadhaar_finalize_found now k ta r Hk).
        destruct (String.eqb _ _); simpl; [now rewrite lookup_insert_ne | reflexivity].
      * now destruct (aadhaar_missing k ta Hk) as (_ & _ & -> & _).
    + destruct (ta !! k) as [r |] eqn:Hk.
      * now rewrite (aadhaar_status_found k ta r Hk).
      * now destruct (aadhaar_missing k ta Hk) as (_ & _ & _ & ->).
Qed.

(** X10.  The whole lifecycle composes: create (unused identifier, values that
    fit), send-otp, verify-otp with any OTP and finalize, served one after
    the other, add exactly one row to the table, in status LINKED, created
    at the time of the create and last updated at the time of the
    finalize. *)
Theorem lifecycle_links
    (up ua n0 n1 n2 n3 : Z) (otp_sent : OtpVerify)
    (datap : Pan.PanStart) (tp : Pan.table)
    (dataa : Aadhaar.AadhaarStart) (ta : Aadhaar.table) :
  varchar 10 (Pan.panNumber datap) = true ->
  varchar 100 (Pan.customerName datap) = true ->
  tp !! Py.fresh_id "PAN_" up = None ->
  Aadhaar.AadhaarStartSchema dataa = true ->
  ta !! Py.fresh_id "ADR_" ua = None ->
  let keyp := Py.fresh_id "PAN_" up in
  let keya := Py.fresh_id "ADR_" ua in
  Pan.serve
    [ Pan.start up n0 datap; Pan.send_otp n1 keyp;
      Pan.verify_otp n2 otp_sent keyp; Pan.finalize n3 keyp ] tp
  = <[keyp := {| Pan.pan_number := Pan.panNumber datap;
                 Pan.customer_name := Pan.customerName datap;
                 Pan.status := "LINKED";
                 Pan.created_at := n0; Pan.updated_at := n3 |}]> tp
  /\
  Aadhaar.serve
    [ Aadhaar.start ua n0 dataa; Aadhaar.send_otp n1 keya;
      Aadhaar.verify_otp n2 otp_sent keya; Aadhaar.finalize n3 keya ] ta
  = <[keya := {| Aadhaar.aadhaar_hash :=
                   SHA256.hexdigest (Py.encode (Aadhaar.aadhaarNumber dataa));
                 Aadhaar.masked_aadhaar :=
                   "XXXX-XXXX-" +:+ Py.last_chars 4 (Aadhaar.aadhaarNumber dataa);
                 Aadhaar.status := "LINKED";
                 Aadhaar.consent_obtained := true;
                 Aadhaar.created_at := n0; Aadhaar.updated_at := n3 |}]> ta.
Proof.
  intros Hpan Hname Hfp Hva Hfa keyp keya. split.
  - cbn [Pan.serve Pan.handle].
    destruct (pan_start_cases up n0 datap tp) as [(E & _ & _) | (e & _ & [F | F])].
    + rewrite E. cbn [snd]. fold keyp.
      erewrite pan_send_otp_found by apply lookup_insert_eq.
      cbn [snd Pan.status]. change (String.eqb PENDING_OTP OTP_SENT) with false.
      cbn iota. rewrite insert_insert_eq.
      erewrite pan_verify_otp_found by apply lookup_insert_eq.
      cbn [snd Pan.status Pan.touch Pan.set_status].
      change (String.eqb OTP_SENT OTP_VERIFIED) with false.
      cbn iota. rewrite insert_insert_eq.
      erewrite pan_finalize_found by apply lookup_insert_eq.
      cbn [snd Pan.status Pan.touch Pan.set_status].
      change (String.eqb OTP_VERIFIED OTP_VERIFIED) with true.
      cbn iota. cbn [snd]. rewrite insert_insert_eq. reflexivity.
    + rewrite pan_fits_columns, Hpan, Hname in F. discriminate.
    + rewrite Hfp in F. destruct F as [? F]. discriminate.
  - cbn [Aadhaar.serve Aadhaar.handle].
    assert (Hc : Aadhaar.consentObtained dataa = true).
    { unfold Aadhaar.AadhaarStartSchema in Hva.
      apply andb_true_iff in Hva as [_ Hc].
      now destruct (Aadhaar.consentObtained dataa). }
    destruct (aadhaar_start_cases ua n0 dataa ta) as [(E & _ & _) | (e & _ & [F | F])].
    + rewrite E. cbn [snd]. fold keya.
      erewrite aadhaar_send_otp_found by apply lookup_insert_eq.
      cbn [snd Aadhaar.status]. change (String.eqb PENDING_OTP OTP_SENT) with false.
      cbn iota. rewrite insert_insert_eq.
      erewrite aadhaar_verify_otp_found by apply lookup_insert_eq.
      cbn [snd Aadhaar.status Aadhaar.touch Aadhaar.set_status].
      change (String.eqb OTP_SENT OTP_VERIFIED) with false.
      cbn iota. rewrite insert_insert_eq.
      erewrite aadhaar_finalize_found by apply lookup_insert_eq.
      cbn [snd Aadhaar.status Aadhaar.touch Aadhaar.set_status].
      change (String.eqb OTP_VERIFIED OTP_VERIFIED) with true.
      cbn iota. cbn [snd]. rewrite insert_insert_eq, Hc. reflexivity.
    + rewrite aadhaar_new_row_fits in F by exact Hva. discriminate.
    + rewrite Hfa in F. destruct F as [? F]. discriminate.
Qed.

(** ** KYC sessions and documents *)

Lemma one_of_spec (choices : list string) (s : string) :
  one_of choices s = true <-> In s choices.
Proof.
  unfold one_of. rewrite existsb_exists. split.
  - intros (x & Hx & E). apply String.eqb_eq in E. now subst.
  - intros H. exists s. split; [exact H | apply String.eqb_refl].
Qed.

Lemma id_taken_spec (key : string) (docs : list Kyc.DocumentModel) :
  existsb (fun d' => String.eqb (Kyc.id d') key) docs = true
  <-> key ∈ map Kyc.id docs.
Proof.
  rewrite list_elem_of_In, existsb_exists, in_map_iff. split.
  - intros (d & Hd & E). apply String.eqb_eq in E. eauto.
  - intros (d & E & Hd). exists d. split; [exact Hd |]. now apply String.eqb_eq.
Qed.

Lemma nodup_snoc {A} (l : list A) (x : A) :
  NoDup l -> x ∉ l -> NoDup (l ++ [x]).
Proof.
  intros Hl Hx. apply NoDup_app. split; [exact Hl |]. split.
  - intros y Hy Hin. apply list_elem_of_singleton in Hin. now subst.
  - apply NoDup_singleton.
Qed.

Lemma kyc_new_document_fits (u now : Z) (data : Kyc.KycDoc) (sessionId : string) :
  Kyc.KycDocSchema data = true ->
  varchar 50 sessionId = true ->
  varchar 50 (Kyc.country_ data) = true ->
  Kyc.document_fits
    {| Kyc.id := Py.fresh_id "doc_" u; Kyc.session_id := sessionId;
       Kyc.document_type := Kyc.documentType data; Kyc.side := Kyc.side_ data;
       Kyc.country := Kyc.country_ data; Kyc.state := Kyc.UPLOADED;
       Kyc.uploaded_at := now |} = true.
Proof.
  intros Hv Hs Hc. unfold Kyc.KycDocSchema in Hv.
  apply andb_true_iff in Hv as [Ht Hside].
  apply one_of_spec in Ht. apply one_of_spec in Hside.
  unfold Kyc.document_fits.
  cbn [Kyc.id Kyc.session_id Kyc.document_type Kyc.side Kyc.country Kyc.state].
  rewrite Hs, Hc. unfold varchar at 1. rewrite fresh_id_length.
  assert (Et : varchar 50 (Kyc.documentType data) = true).
  { simpl in Ht. destruct Ht as [<- | [<- | [<- | [<- | []]]]]; reflexivity. }
  assert (Es : varchar 10 (Kyc.side_ data) = true).
  { simpl in Hside. destruct Hside as [<- | [<- | []]]; reflexivity. }
  rewrite Et, Es. reflexivity.
Qed.

(** What a successful [Docs.post] is. *)
Lemma kyc_docs_post_success
    (u now : Z) (data : Kyc.KycDoc) (sessionId : string) (t : Kyc.tables) s :
  Kyc.kyc_sessions t !! sessionId = Some s ->
  Kyc.KycDocSchema data = true ->
  varchar 50 sessionId = true ->
  varchar 50 (Kyc.country_ data) = true ->
  Py.fresh_id "doc_" u ∉ map Kyc.id (Kyc.kyc_documents t) ->
  Kyc.Docs_post u now data sessionId t
  = (inr (Response
            [ ("documentId", VStr (Py.fresh_id "doc_" u));
              ("status", VStr "UPLOADED") ]
            201),
     {| Kyc.kyc_sessions := Kyc.kyc_sessions t;
        Kyc.kyc_documents :=
          Kyc.kyc_documents t
          ++ [ {| Kyc.id := Py.fresh_id "doc_" u; Kyc.session_id := sessionId;
                  Kyc.document_type := Kyc.documentType data;
                  Kyc.side := Kyc.side_ data;
                  Kyc.country := Kyc.country_ data; Kyc.state := "UPLOADED";
                  Kyc.uploaded_at := now |} ] |}).
Proof.
  intros Hs Hv Hsid Hc Hnew.
  unfold Kyc.Docs_post, bind. rewrite (kyc_session_found _ _ _ Hs).
  unfold Kyc.add_document.
  rewrite kyc_new_document_fits by assumption. cbn [negb].
  destruct (existsb _ _) eqn:Ex.
  - exfalso. apply Hnew. now apply id_taken_spec.
  - reflexivity.
Qed.

Lemma kyc_handle_keys_sound (rq : Kyc.request) (t : Kyc.tables) :
  kyc_keys_sound t -> kyc_keys_sound (snd (Kyc.handle rq t)).
Proof.
  intros [Hnd Hfk].
  destruct rq as [u now data | u now data sid | sid]; simpl.
  - unfold Kyc.Sessions_post, bind, Kyc.add_session.
    match goal with
    | |- context [add_commit ?k ?s ?ok ?m] =>
        destruct (add_commit_cases k s ok m) as [(E & _) | (e' & E & _)]; rewrite E
    end; simpl.
    + split; [exact Hnd |]. simpl. intros d Hd.
      destruct (Hfk d Hd) as [s Hs].
      destruct (decide (Py.fresh_id "sess_" u = Kyc.session_id d)) as [Ek | Nk].
      * rewrite Ek, lookup_insert_eq. eauto.
      * rewrite lookup_insert_ne by exact Nk. eauto.
    + now split.
  - destruct (Kyc.kyc_sessions t !! sid) as [s |] eqn:Hs.
    + unfold Kyc.Docs_post, bind. rewrite (kyc_session_found _ _ _ Hs).
      unfold Kyc.add_document.
      destruct (negb _); [now split |].
      destruct (existsb _ _) eqn:Ex; [now split |].
      unfold ret. cbn [snd]. split; cbn [Kyc.kyc_documents Kyc.kyc_sessions].
      * rewrite map_app. apply nodup_snoc; [exact Hnd |].
        intros H. apply id_taken_spec in H. cbn [Kyc.id] in H, Ex. congruence.
      * intros d Hd. apply elem_of_app in Hd as [Hd | Hd]; [now apply Hfk |].
        apply list_elem_of_singleton in Hd. subst d. simpl. eauto.
    + destruct (kyc_missing sid t Hs) as (-> & _). now split.
  - destruct (Kyc.kyc_sessions t !! sid) as [s |] eqn:Hs.
    + rewrite (kyc_summary_found sid t s Hs). now split.
    + destruct (kyc_missing sid t Hs) as (_ & ->). now split.
Qed.

Lemma kyc_empty_keys_sound : kyc_keys_sound Kyc.empty.
Proof. split; simpl; [constructor | intros d Hd; inversion Hd]. Qed.

Lemma kyc_serve_keys_sound (rqs : list Kyc.request) (t : Kyc.tables) :
  kyc_keys_sound t -> kyc_keys_sound (Kyc.serve rqs t).
Proof.
  revert t. induction rqs as [| rq rqs IH]; intros t Ht; simpl; [exact Ht |].
  apply IH, kyc_handle_keys_sound, Ht.
Qed.

(** X11.  The KYC tables keep their keys sound: after any sequence of requests
    from empty tables no two documents share an id and every document
    belongs to a stored session; the same holds from any tables whose keys
    are sound. *)
Theorem kyc_keys_stay_sound (rqs : list Kyc.request) :
  kyc_keys_sound (Kyc.serve rqs Kyc.empty)
  /\ (forall t, kyc_keys_sound t -> kyc_keys_sound (Kyc.serve rqs t)).
Proof.
  split.
  - apply kyc_serve_keys_sound, kyc_empty_keys_sound.
  - intros t. apply kyc_serve_keys_sound.
Qed.

(** What a successful [Sessions.post] is. *)
Lemma kyc_sessions_post_success (u now : Z) (data : Kyc.Session) (t : Kyc.tables) :
  Kyc.SessionSchema data = true ->
  varchar 100 (Kyc.kycPurpose data) = true ->
  Kyc.kyc_sessions t !! Py.fresh_id "sess_" u = None ->
  Kyc.Sessions_post u now data t
  = (inr (Response
            [ ("sessionId", VStr (Py.fresh_id "sess_" u));
              ("status", VStr "CREATED") ]
            201),
     {| Kyc.kyc_sessions :=
          <[Py.fresh_id "sess_" u :=
              {| Kyc.kyc_purpose := Kyc.kycPurpose data; Kyc.jurisdiction := "IN";
                 Kyc.status := "CREATED"; Kyc.created_at := now |}]>
            (Kyc.kyc_sessions t);
        Kyc.kyc_documents := Kyc.kyc_documents t |}).
Proof.
  intros Hv Hp Hfresh.
  assert (Hj : Kyc.jurisdiction_ data = "IN").
  { apply one_of_spec in Hv. simpl in Hv. destruct Hv as [<- | []]. reflexivity. }
  unfold Kyc.Sessions_post, bind, Kyc.add_session, add_commit.
  rewrite Hfresh.
  unfold Kyc.session_fits. cbn [Kyc.kyc_purpose Kyc.jurisdiction Kyc.status].
  rewrite Hp, Hj. unfold varchar at 1. rewrite fresh_id_length. reflexivity.
Qed.

(** X12.  [Sessions.post] with an accepted payload, a purpose within its
    column and an unused generated identifier answers 201 with that
    identifier and CREATED, stores the session and changes nothing else; on
    tables with sound keys its summary then answers 200 with no
    documents. *)
Theorem sessions_post_round_trip
    (u now : Z) (data : Kyc.Session) (t : Kyc.tables) :
  Kyc.SessionSchema data = true ->
  varchar 100 (Kyc.kycPurpose data) = true ->
  Kyc.kyc_sessions t !! Py.fresh_id "sess_" u = None ->
  kyc_keys_sound t ->
  let key := Py.fresh_id "sess_" u in
  let out := Kyc.Sessions_post u now data t in
  fst out
  = inr (Response [ ("sessionId", VStr key); ("status", VStr "CREATED") ] 201)
  /\ Kyc.kyc_sessions (snd out) !! key
     = Some {| Kyc.kyc_purpose := Kyc.kycPurpose data; Kyc.jurisdiction := "IN";
               Kyc.status := "CREATED"; Kyc.created_at := now |}
  /\ (forall k, k <> key -> Kyc.kyc_sessions (snd out) !! k = Kyc.kyc_sessions t !! k)
  /\ Kyc.kyc_documents (snd out) = Kyc.kyc_documents t
  /\ fst (Kyc.Summary_get key (snd out))
     = inr (Response
              [ ("sessionId", VStr key); ("status", VStr "CREATED");
                ("documentCount", VInt 0); ("documents", VList []) ]
              200).
Proof.
  intros Hv Hp Hfresh [_ Hfk] key out. subst out.
  rewrite (kyc_sessions_post_success u now data t Hv Hp Hfresh).
  fold key. cbn [fst snd Kyc.kyc_sessions Kyc.kyc_documents].
  split; [reflexivity |]. split; [apply lookup_insert_eq |].
  split; [intros k Hk; now apply lookup_insert_ne |].
  split; [reflexivity |].
  erewrite kyc_summary_found by (cbn [Kyc.kyc_sessions]; apply lookup_insert_eq).
  assert (Hnone : forall sessions,
    Kyc.documents_of key
      {| Kyc.kyc_sessions := sessions; Kyc.kyc_documents := Kyc.kyc_documents t |}
    = []).
  { intros sessions. unfold Kyc.documents_of. cbn [Kyc.kyc_documents].
    induction (Kyc.kyc_documents t) as [| d l IH]; [reflexivity |]. simpl.
    destruct (String.eqb_spec (Kyc.session_id d) key) as [E | E].
    - exfalso. destruct (Hfk d) as [s Hs]; [left |].
      rewrite E in Hs. subst key. congruence.
    - apply IH. intros d' Hd'. apply Hfk. now right. }
  rewrite Hnone. reflexivity.
Qed.

(** X13.  [Docs.post] on a stored session, with an accepted payload, values
    that fit and an unused generated identifier, answers 201 with that
    identifier and UPLOADED and appends exactly one document: the session's
    summary lists one document more, at the end, and its documentCount
    grows by one, while the sessions and the documents of the other sessions
    are as before. *)
Theorem docs_post_appends_one
    (u now : Z) (data : Kyc.KycDoc) (sessionId : string) (t : Kyc.tables)
    (s : Kyc.SessionModel) :
  Kyc.kyc_sessions t !! sessionId = Some s ->
  Kyc.KycDocSchema data = true ->
  varchar 50 sessionId = true ->
  varchar 50 (Kyc.country_ data) = true ->
  Py.fresh_id "doc_" u ∉ map Kyc.id (Kyc.kyc_documents t) ->
  let out := Kyc.Docs_post u now data sessionId t in
  let doc := {| Kyc.id := Py.fresh_id "doc_" u; Kyc.session_id := sessionId;
                Kyc.document_type := Kyc.documentType data;
                Kyc.side := Kyc.side_ data;
                Kyc.country := Kyc.country_ data; Kyc.state := "UPLOADED";
                Kyc.uploaded_at := now |} in
  fst out
  = inr (Response
           [ ("documentId", VStr (Py.fresh_id "doc_" u));
             ("status", VStr "UPLOADED") ]
           201)
  /\ Kyc.kyc_sessions (snd out) = Kyc.kyc_sessions t
  /\ Kyc.kyc_documents (snd out) = Kyc.kyc_documents t ++ [doc]
  /\ Kyc.documents_of sessionId (snd out) = Kyc.documents_of sessionId t ++ [doc]
  /\ (forall other, other <> sessionId ->
        Kyc.documents_of other (snd out) = Kyc.documents_of other t)
  /\ summary_count sessionId t
     = Some (VInt (Z.of_nat (length (Kyc.documents_of sessionId t))))
  /\ summary_count sessionId (snd out)
     = Some (VInt (Z.of_nat (length (Kyc.documents_of sessionId t)) + 1)).
Proof.
  intros Hs Hv Hsid Hc Hnew out doc. subst out.
  rewrite (kyc_docs_post_success u now data sessionId t s Hs Hv Hsid Hc Hnew).
  fold doc. cbn [fst snd Kyc.kyc_sessions Kyc.kyc_documents].
  split; [reflexivity |]. split; [reflexivity |]. split; [reflexivity |].
  assert (Hmine : Kyc.documents_of sessionId
                    {| Kyc.kyc_sessions := Kyc.kyc_sessions t;
                       Kyc.kyc_documents := Kyc.kyc_documents t ++ [doc] |}
                  = Kyc.documents_of sessionId t ++ [doc]).
  { unfold Kyc.documents_of. cbn [Kyc.kyc_documents].
    rewrite List.filter_app. cbn [List.filter Kyc.session_id doc].
    now rewrite String.eqb_refl. }
  split; [exact Hmine |]. split.
  - intros other Hne. unfold Kyc.documents_of. cbn [Kyc.kyc_documents].
    rewrite List.filter_app. cbn [List.filter Kyc.session_id doc].
    destruct (String.eqb_spec sessionId other) as [E | E]; [congruence |].
    apply app_nil_r.
  - unfold summary_count. split.
    + now rewrite (kyc_summary_found sessionId t s Hs).
    + erewrite kyc_summary_found by (cbn [Kyc.kyc_sessions]; exact Hs).
      cbn [fst body field String.eqb Ascii.eqb Bool.eqb]. rewrite Hmine.
      rewrite length_app. cbn [length]. do 2 f_equal. lia.
Qed.

(** ** Payloads the schemas refuse *)

Lemma length_equal_false (n : nat) (s : string) :
  String.length s <> n -> length_equal n s = false.
Proof. intros H. unfold length_equal. now apply Nat.eqb_neq. Qed.

(** X14.  A payload its schema refuses is answered 422 before the method body
    runs, so nothing is written and a stored request keeps its status: an
    Aadhaar create without consent or with a number that is not 12
    characters long, a PAN create whose PAN has neither 10 nor 11
    characters, a verify-otp whose OTP is not 6 characters long (also for a
    stored request), a session whose jurisdiction is not IN, a document whose
    type or side is not in its list.  Without a valid token no view
    writes. *)
Theorem payload_validation :
  (forall u now data (t : Aadhaar.table),
      Aadhaar.consentObtained data = false
      \/ String.length (Aadhaar.aadhaarNumber data) <> 12%nat ->
      Aadhaar.AadhaarStart_view true u now data t = (inl (Abort 422 None), t))
  /\ (forall u now data (t : Pan.table),
        String.length (Pan.panNumber data) <> 10%nat ->
        String.length (Pan.panNumber data) <> 11%nat ->
        Pan.PanStart_view true u now data t = (inl (Abort 422 None), t))
  /\ (forall now requestId data (tp : Pan.table) (ta : Aadhaar.table),
        String.length (otp data) <> 6%nat ->
        Pan.PanVerifyOtp_view true now requestId data tp = (inl (Abort 422 None), tp)
        /\ Aadhaar.AadhaarVerifyOtp_view true now requestId data ta
           = (inl (Abort 422 None), ta))
  /\ (forall u now data (t : Kyc.tables),
        Kyc.jurisdiction_ data <> "IN" ->
        Kyc.Sessions_view true u now data t = (inl (Abort 422 None), t))
  /\ (forall u now sessionId data (t : Kyc.tables),
        ~ In (Kyc.documentType data) ["PAN"; "AADHAAR"; "PASSPORT"; "VOTER_ID"]
        \/ ~ In (Kyc.side_ data) ["FRONT"; "BACK"] ->
        Kyc.Docs_view true u now sessionId data t = (inl (Abort 422 None), t))
  /\ (forall u now requestId datap dataa otp_sent datas datad
             (tp : Pan.table) (ta : Aadhaar.table) (tk : Kyc.tables),
        snd (Pan.PanStart_view false u now datap tp) = tp
        /\ snd (Pan.PanSendOtp_view false now requestId tp) = tp
        /\ snd (Pan.PanVerifyOtp_view false now requestId otp_sent tp) = tp
        /\ snd (Pan.PanFinalize_view false now requestId tp) = tp
        /\ snd (Aadhaar.AadhaarStart_view false u now dataa ta) = ta
        /\ snd (Aadhaar.AadhaarSendOtp_view false now requestId ta) = ta
        /\ snd (Aadhaar.AadhaarVerifyOtp_view false now requestId otp_sent ta) = ta
        /\ snd (Aadhaar.AadhaarFinalize_view false now requestId ta) = ta
        /\ snd (Kyc.Sessions_view false u now datas tk) = tk
        /\ snd (Kyc.Docs_view false u now requestId datad tk) = tk).
Proof.
  split; [| split; [| split; [| split; [| split]]]].
  - intros u now data t H.
    unfold Aadhaar.AadhaarStart_view, jwt_required, arguments,
      Aadhaar.AadhaarStartSchema.
    destruct H as [H | H].
    + rewrite H. now rewrite andb_false_r.
    + now rewrite length_equal_false.
  - intros u now data t H10 H11.
    unfold Pan.PanStart_view, jwt_required, arguments.
    destruct (Pan.PanStartSchema data) eqn:E; [| reflexivity].
    destruct (pan_regexp_length _ E); contradiction.
  - intros now requestId data tp ta H.
    unfold Pan.PanVerifyOtp_view, Aadhaar.AadhaarVerifyOtp_view, jwt_required,
      arguments, OtpVerifySchema.
    now rewrite length_equal_false.
  - intros u now data t H.
    unfold Kyc.Sessions_view, jwt_required, arguments.
    destruct (Kyc.SessionSchema data) eqn:E; [| reflexivity].
    apply one_of_spec in E. simpl in E. destruct E as [E | []]. now contradiction H.
  - intros u now sessionId data t H.
    unfold Kyc.Docs_view, jwt_required, arguments.
    destruct (Kyc.KycDocSchema data) eqn:E; [| reflexivity].
    unfold Kyc.KycDocSchema in E. apply andb_true_iff in E as [Et Es].
    apply one_of_spec in Et. apply one_of_spec in Es.
    destruct H as [H | H]; contradiction.
  - intros. repeat split.
Qed.

(* ===================================================================== *)
(** * The further properties on the sample requests *)
(* ===================================================================== *)

Lemma pan_start_round_trip_witness :
  varchar 10 (Pan.panNumber Sample.pan_data) = true
  /\ varchar 100 (Pan.customerName Sample.pan_data) = true
  /\ (∅ : Pan.table) !! Py.fresh_id "PAN_" Sample.pan_uuid = None
  /\ size (snd (Pan.PanStart_post Sample.pan_uuid 100 Sample.pan_data ∅))
     = S (size (∅ : Pan.table))
  /\ fst (Pan.PanStatus_get (Py.fresh_id "PAN_" Sample.pan_uuid)
            (snd (Pan.PanStart_post Sample.pan_uuid 100 Sample.pan_data ∅)))
     = inr (Response
              [ ("requestId", VStr "PAN_1F2E3D4C"); ("status", VStr "PENDING_OTP");
                ("pan_number", VStr "******234F"); ("updatedAt", VTime 100) ]
              200).
Proof.
  assert (Hp : varchar 10 (Pan.panNumber Sample.pan_data) = true) by reflexivity.
  assert (Hn : varchar 100 (Pan.customerName Sample.pan_data) = true)
    by reflexivity.
  assert (Hf : (∅ : Pan.table) !! Py.fresh_id "PAN_" Sample.pan_uuid = None)
    by (vm_compute; reflexivity).
  split; [exact Hp |]. split; [exact Hn |]. split; [exact Hf |].
  destruct (pan_start_round_trip Sample.pan_uuid 100 Sample.pan_data ∅ Hp Hn Hf)
    as (_ & _ & _ & Hsize & Hget).
  split; [exact Hsize | exact Hget].
Defined.

Lemma aadhaar_start_round_trip_witness :
  let data := {| Aadhaar.aadhaarNumber := "123456789012";
                 Aadhaar.consentObtained := true |} in
  Aadhaar.AadhaarStartSchema data = true
  /\ (∅ : Aadhaar.table) !! Py.fresh_id "ADR_" Sample.adr_uuid = None
  /\ fst (Aadhaar.AadhaarStatus_get (Py.fresh_id "ADR_" Sample.adr_uuid)
            (snd (Aadhaar.AadhaarStart_post Sample.adr_uuid 100 data ∅)))
     = inr (Response
              [ ("requestId", VStr "ADR_ABCDEF01"); ("status", VStr "PENDING_OTP");
                ("maskedAadhaar", VStr "XXXX-XXXX-9012"); ("updatedAt", VTime 100) ]
              200).
Proof.
  intros data.
  assert (Hv : Aadhaar.AadhaarStartSchema data = true) by reflexivity.
  assert (Hf : (∅ : Aadhaar.table) !! Py.fresh_id "ADR_" Sample.adr_uuid = None)
    by (vm_compute; reflexivity).
  split; [exact Hv |]. split; [exact Hf |].
  destruct (aadhaar_start_round_trip Sample.adr_uuid 100 data ∅ Hv Hf)
    as (_ & _ & _ & _ & Hget).
  exact Hget.
Defined.

Lemma send_otp_idempotent_witness :
  let tp := Pan.serve Sample.pan_lifecycle ∅ in
  let ta := Aadhaar.serve (firstn 1 Sample.adr_lifecycle) ∅ in
  tp !! Sample.pan_id = Some (Sample.pan_row LINKED 103)
  /\ ta !! Sample.adr_id = Some (Sample.adr_row PENDING_OTP 100)
  /\ http_status (Pan.PanSendOtp_post 104 Sample.pan_id tp) = 200
  /\ http_status (Aadhaar.AadhaarSendOtp_post 104 Sample.adr_id ta) = 200.
Proof.
  intros tp ta.
  assert (Hp : tp !! Sample.pan_id = Some (Sample.pan_row LINKED 103))
    by (vm_compute; reflexivity).
  assert (Ha : ta !! Sample.adr_id = Some (Sample.adr_row PENDING_OTP 100))
    by (vm_compute; reflexivity).
  split; [exact Hp |]. split; [exact Ha |].
  destruct (send_otp_idempotent 104 _ _ _ _ _ _ Hp Ha) as [(P & _) (A & _)].
  split; [exact P | exact A].
Defined.

Lemma finalize_not_repeatable_witness :
  let tp := Pan.serve (firstn 3 Sample.pan_lifecycle) ∅ in
  let ta := Aadhaar.serve (firstn 3 Sample.adr_lifecycle) ∅ in
  tp !! Sample.pan_id = Some (Sample.pan_row OTP_VERIFIED 102)
  /\ ta !! Sample.adr_id = Some (Sample.adr_row OTP_VERIFIED 102)
  /\ http_status (Pan.PanFinalize_post 103 Sample.pan_id tp) = 200
  /\ http_status (Aadhaar.AadhaarFinalize_post 103 Sample.adr_id ta) = 200.
Proof.
  intros tp ta.
  assert (Hp : tp !! Sample.pan_id = Some (Sample.pan_row OTP_VERIFIED 102))
    by (vm_compute; reflexivity).
  assert (Ha : ta !! Sample.adr_id = Some (Sample.adr_row OTP_VERIFIED 102))
    by (vm_compute; reflexivity).
  split; [exact Hp |]. split; [exact Ha |].
  destruct (finalize_not_repeatable 103 104 _ _ _ _ _ _ Hp eq_refl Ha eq_refl)
    as [(P & _) (A & _)].
  split; [exact P | exact A].
Defined.

Lemma verify_then_finalize_links_witness :
  let tp := Pan.serve (firstn 1 Sample.pan_lifecycle) ∅ in
  let ta := Aadhaar.serve (firstn 1 Sample.adr_lifecycle) ∅ in
  tp !! Sample.pan_id = Some (Sample.pan_row PENDING_OTP 100)
  /\ ta !! Sample.adr_id = Some (Sample.adr_row PENDING_OTP 100)
  /\ snd (Pan.PanFinalize_post 102 Sample.pan_id
            (snd (Pan.PanVerifyOtp_post 101 {| otp := "000000" |} Sample.pan_id tp)))
       !! Sample.pan_id
     = Some (Sample.pan_row LINKED 102).
Proof.
  intros tp ta.
  assert (Hp : tp !! Sample.pan_id = Some (Sample.pan_row PENDING_OTP 100))
    by (vm_compute; reflexivity).
  assert (Ha : ta !! Sample.adr_id = Some (Sample.adr_row PENDING_OTP 100))
    by (vm_compute; reflexivity).
  split; [exact Hp |]. split; [exact Ha |].
  destruct (verify_then_finalize_links 101 102 {| otp := "000000" |} _ _ _ _ _ _ Hp Ha)
    as [(_ & _ & P) _].
  exact P.
Defined.

Lemma other_requests_untouched_witness :
  let tp := Pan.serve (firstn 1 Sample.pan_lifecycle) ∅ in
  let ta := Aadhaar.serve (firstn 1 Sample.adr_lifecycle) ∅ in
  "PAN_1F2E3D4C" <> pan_subject (Pan.send_otp 101 "PAN_00000000")
  /\ "PAN_1F2E3D4C" <> aadhaar_subject (Aadhaar.finalize 101 Sample.adr_id)
  /\ snd (Pan.handle (Pan.send_otp 101 "PAN_00000000") tp) !! "PAN_1F2E3D4C"
     = tp !! "PAN_1F2E3D4C".
Proof.
  intros tp ta.
  assert (Np : "PAN_1F2E3D4C" <> pan_subject (Pan.send_otp 101 "PAN_00000000"))
    by discriminate.
  assert (Na : "PAN_1F2E3D4C" <> aadhaar_subject (Aadhaar.finalize 101 Sample.adr_id))
    by discriminate.
  split; [exact Np |]. split; [exact Na |].
  exact (proj1 (other_requests_untouched _ tp _ ta _ Np Na)).
Defined.

Lemma lifecycle_links_witness :
  let dataa := {| Aadhaar.aadhaarNumber := "123456789012";
                  Aadhaar.consentObtained := true |} in
  varchar 10 (Pan.panNumber Sample.pan_data) = true
  /\ varchar 100 (Pan.customerName Sample.pan_data) = true
  /\ (∅ : Pan.table) !! Py.fresh_id "PAN_" Sample.pan_uuid = None
  /\ Aadhaar.AadhaarStartSchema dataa = true
  /\ (∅ : Aadhaar.table) !! Py.fresh_id "ADR_" Sample.adr_uuid = None
  /\ Pan.serve
       [ Pan.start Sample.pan_uuid 100 Sample.pan_data;
         Pan.send_otp 101 (Py.fresh_id "PAN_" Sample.pan_uuid);
         Pan.verify_otp 102 {| otp := "000000" |} (Py.fresh_id "PAN_" Sample.pan_uuid);
         Pan.finalize 103 (Py.fresh_id "PAN_" Sample.pan_uuid) ] ∅
     = <[Py.fresh_id "PAN_" Sample.pan_uuid := Sample.pan_row "LINKED" 103]> ∅.
Proof.
  intros dataa.
  assert (Hp : varchar 10 (Pan.panNumber Sample.pan_data) = true) by reflexivity.
  assert (Hn : varchar 100 (Pan.customerName Sample.pan_data) = true)
    by reflexivity.
  assert (Hfp : (∅ : Pan.table) !! Py.fresh_id "PAN_" Sample.pan_uuid = None)
    by (vm_compute; reflexivity).
  assert (Hv : Aadhaar.AadhaarStartSchema dataa = true) by reflexivity.
  assert (Hfa : (∅ : Aadhaar.table) !! Py.fresh_id "ADR_" Sample.adr_uuid = None)
    by (vm_compute; reflexivity).
  split; [exact Hp |]. split; [exact Hn |]. split; [exact Hfp |].
  split; [exact Hv |]. split; [exact Hfa |].
  exact (proj1 (lifecycle_links Sample.pan_uuid Sample.adr_uuid 100 101 102 103
                  {| otp := "000000" |} Sample.pan_data ∅ dataa ∅
                  Hp Hn Hfp Hv Hfa)).
Defined.

Lemma sessions_post_round_trip_witness :
  let data := {| Kyc.kycPurpose := "ACCOUNT_OPENING"; Kyc.jurisdiction_ := "IN";
                 Kyc.customer := [] |} in
  Kyc.SessionSchema data = true
  /\ varchar 100 (Kyc.kycPurpose data) = true
  /\ Kyc.kyc_sessions Kyc.empty !! Py.fresh_id "sess_" Sample.kyc_uuid = None
  /\ kyc_keys_sound Kyc.empty
  /\ fst (Kyc.Summary_get (Py.fresh_id "sess_" Sample.kyc_uuid)
            (snd (Kyc.Sessions_post Sample.kyc_uuid 100 data Kyc.empty)))
     = inr (Response
              [ ("sessionId", VStr (Py.fresh_id "sess_" Sample.kyc_uuid));
                ("status", VStr "CREATED");
                ("documentCount", VInt 0); ("documents", VList []) ]
              200).
Proof.
  intros data.
  assert (Hv : Kyc.SessionSchema data = true) by reflexivity.
  assert (Hp : varchar 100 (Kyc.kycPurpose data) = true) by reflexivity.
  assert (Hf : Kyc.kyc_sessions Kyc.empty !! Py.fresh_id "sess_" Sample.kyc_uuid
               = None) by (vm_compute; reflexivity).
  assert (Hk : kyc_keys_sound Kyc.empty) by apply kyc_empty_keys_sound.
  split; [exact Hv |]. split; [exact Hp |]. split; [exact Hf |]. split; [exact Hk |].
  destruct (sessions_post_round_trip Sample.kyc_uuid 100 data Kyc.empty Hv Hp Hf Hk)
    as (_ & _ & _ & _ & H).
  exact H.
Defined.

Lemma docs_post_appends_one_witness :
  let t := Kyc.serve Sample.kyc_requests Kyc.empty in
  let data := {| Kyc.documentType := "AADHAAR"; Kyc.side_ := "BACK";
                 Kyc.country_ := "IN" |} in
  Kyc.kyc_sessions t !! Sample.kyc_id
  = Some {| Kyc.kyc_purpose := "ACCOUNT_OPENING"; Kyc.jurisdiction := "IN";
            Kyc.status := "CREATED"; Kyc.created_at := 100 |}
  /\ Kyc.KycDocSchema data = true
  /\ varchar 50 Sample.kyc_id = true
  /\ varchar 50 (Kyc.country_ data) = true
  /\ (Py.fresh_id "doc_" 7 ∉ map Kyc.id (Kyc.kyc_documents t))
  /\ summary_count Sample.kyc_id (snd (Kyc.Docs_post 7 105 data Sample.kyc_id t))
     = Some (VInt (Z.of_nat (length (Kyc.documents_of Sample.kyc_id t)) + 1)).
Proof.
  intros t data.
  assert (Hs : Kyc.kyc_sessions t !! Sample.kyc_id
               = Some {| Kyc.kyc_purpose := "ACCOUNT_OPENING";
                         Kyc.jurisdiction := "IN";
                         Kyc.status := "CREATED"; Kyc.created_at := 100 |})
    by (vm_compute; reflexivity).
  assert (Hv : Kyc.KycDocSchema data = true) by reflexivity.
  assert (Hi : varchar 50 Sample.kyc_id = true) by reflexivity.
  assert (Hc : varchar 50 (Kyc.country_ data) = true) by reflexivity.
  assert (Hn : Py.fresh_id "doc_" 7 ∉ map Kyc.id (Kyc.kyc_documents t)).
  { vm_compute. intros H. apply list_elem_of_singleton in H. discriminate H. }
  split; [exact Hs |]. split; [exact Hv |]. split; [exact Hi |].
  split; [exact Hc |]. split; [exact Hn |].
  destruct (docs_post_appends_one 7 105 data Sample.kyc_id t _ Hs Hv Hi Hc Hn)
    as (_ & _ & _ & _ & _ & _ & H).
  exact H.
Defined.
